(** * Job / component / purchase-order sheet analysis

    A shallow embedding of [scripts/analyze_xlsx_deep.py]: the row loop that
    classifies every sheet row by the columns it populates and accumulates
    unique-value sets, per-job component lists and the "current" cursor, and
    the two tally loops that follow it (purchase-order fulfilment and stock
    availability).

    Cell values are Python objects.  The embedding keeps the three kinds the
    script's control flow distinguishes: [None], [int] (unbounded, hence [Z])
    and [str].  Floating-point, date and boolean cells are outside the model:
    statements that depend on the kind of a cell say which kinds they are
    about.  Python's dynamic typing is kept: ordering a [str] against an
    [int], or subtracting strings, raises [TypeError], which the embedding
    returns as a value.  Text is held as its UTF-8 bytes: the byte order of
    two texts is Python's order by code point, and cutting a text counts
    code points, not bytes.

    The sheet survey of [scripts/analyze_xlsx.py] (header-row search, column
    headers, column profiles, data-row counts) is embedded after it. *)

From stdpp Require Import base decidable countable gmap strings list pretty sorting.
From Stdlib Require Import ZArith Lia Ascii.

Local Open Scope Z_scope.

(** ** Python values *)

Inductive value : Type :=
| VNone
| VInt (z : Z)
| VStr (s : string).

Global Instance value_eq_dec : EqDecision value.
Proof. solve_decision. Defined.

Definition value_enc (v : value) : unit + (Z + string) :=
  match v with
  | VNone => inl tt
  | VInt z => inr (inl z)
  | VStr s => inr (inr s)
  end.

Definition value_dec (x : unit + (Z + string)) : value :=
  match x with
  | inl _ => VNone
  | inr (inl z) => VInt z
  | inr (inr s) => VStr s
  end.

Global Instance value_countable : Countable value.
Proof. refine (inj_countable' value_enc value_dec _). by intros []. Defined.

(** Outcome of a computation that may raise.  The only exception the modelled
    code can raise on these values is [TypeError]. *)
Inductive result (A : Type) : Type :=
| Ok (a : A)
| TypeError.
Arguments Ok {A} a.
Arguments TypeError {A}.

Global Instance result_ret : MRet result := @Ok.

Global Instance result_bind : MBind result := λ A B k m,
  match m with
  | Ok a => k a
  | TypeError => TypeError
  end.

(** [bool(v)]: [None], [0] and the empty string are false. *)
Definition truthy (v : value) : bool :=
  match v with
  | VNone => false
  | VInt z => negb (z =? 0)
  | VStr s => negb (String.eqb s "")
  end.

(** [v or 0] *)
Definition or0 (v : value) : value :=
  if truthy v then v else VInt 0.

(** [a > b] *)
Definition py_gt (a b : value) : result bool :=
  match a, b with
  | VInt x, VInt y => Ok (x >? y)
  | VStr s, VStr t =>
      Ok (match String.compare s t with Gt => true | _ => false end)
  | _, _ => TypeError
  end.

(** [a >= b] *)
Definition py_ge (a b : value) : result bool :=
  match a, b with
  | VInt x, VInt y => Ok (x >=? y)
  | VStr s, VStr t =>
      Ok (match String.compare s t with Lt => false | _ => true end)
  | _, _ => TypeError
  end.

(** [a - b] *)
Definition py_sub (a b : value) : result value :=
  match a, b with
  | VInt x, VInt y => Ok (VInt (x - y))
  | _, _ => TypeError
  end.

(** [str(v)] *)
Definition py_str (v : value) : string :=
  match v with
  | VNone => "None"
  | VInt z => pretty z
  | VStr s => s
  end.

(** ** Rows, component records and the loop state *)

(** The [row] dict built at the top of the loop body: one entry per sheet
    column, 1 to 22. *)
Record Row : Type := mkRow {
  Text48 : value;
  Auto_Date : value;
  SALES_ORDER : value;
  MARK_INFO : value;
  SALESPERSON : value;
  CUSTOMER : value;
  CODE_SORT : value;
  JOB : value;
  PART_CUSTOMER : value;
  Text72 : value;
  COMPONENT : value;
  DESCRIPTION : value;
  UM : value;
  QTY_COMMITTED : value;
  QTY_ISSUED : value;
  QTY_ONHAND : value;
  PURCHASE_ORDER : value;
  VENDOR : value;
  QTY_ORDER : value;
  QTY_RECEIVED : value;
  DATE_DUE_LINE : value;
  DATE_LAST_RECEIVED : value
}.

(** The dict appended to [job_components[current_job]]. *)
Record ComponentRecord : Type := mkComp {
  component : value;
  description : value;
  qty_committed : value;
  qty_issued : value;
  qty_onhand : value;
  has_po : bool;
  po : value;
  vendor : value;
  qty_ordered : value;
  qty_received : value;
  date_due : value;
  shortage : value
}.

(** Module-level variables of the script that the row loop reads and writes.
    [job_components] is a [defaultdict(list)]; Python dicts iterate in
    insertion order, so it is an association list in first-seen key order. *)
Record State : Type := mkState {
  customer_rows : Z;
  job_rows : Z;
  component_rows : Z;
  other_rows : Z;
  jobs : gset value;
  customers : gset value;
  sales_orders : gset value;
  components : gset value;
  vendors : gset value;
  po_numbers : gset value;
  code_sorts : gmap value Z;
  job_components : list (value * list ComponentRecord);
  current_customer : value;
  current_job : value;
  current_mark : value
}.

Definition init : State :=
  {| customer_rows := 0; job_rows := 0; component_rows := 0; other_rows := 0;
     jobs := ∅; customers := ∅; sales_orders := ∅; components := ∅;
     vendors := ∅; po_numbers := ∅; code_sorts := ∅; job_components := [];
     current_customer := VNone; current_job := VNone; current_mark := VNone |}.

(** [s.add(v)] *)
Definition set_add (v : value) (s : gset value) : gset value := {[ v ]} ∪ s.

(** [if v: s.add(v)] *)
Definition set_add_if (v : value) (s : gset value) : gset value :=
  if truthy v then set_add v s else s.

(** [c[k] += 1] on a [Counter]: a missing key counts as 0. *)
Definition counter_incr (k : value) (c : gmap value Z) : gmap value Z :=
  <[ k := default 0 (c !! k) + 1 ]> c.

(** [d[k].append(x)] on a [defaultdict(list)]: a missing key is first inserted
    (at the end) with an empty list. *)
Fixpoint dd_append (k : value) (x : ComponentRecord)
    (d : list (value * list ComponentRecord)) : list (value * list ComponentRecord) :=
  match d with
  | [] => [(k, [x])]
  | (k', l) :: d' =>
      if decide (k' = k) then (k', l ++ [x]) :: d'
      else (k', l) :: dd_append k x d'
  end.

(** [d[k]] read without inserting: the list stored under [k], empty if none. *)
Fixpoint dd_get (k : value) (d : list (value * list ComponentRecord)) : list ComponentRecord :=
  match d with
  | [] => []
  | (k', l) :: d' => if decide (k' = k) then l else dd_get k d'
  end.

(** ** The row loop *)

(** The branch of the [if]/[elif] chain a row takes. *)
Inductive RowType : Type := Header | Job | Component | Other.

Global Instance RowType_eq_dec : EqDecision RowType.
Proof. solve_decision. Defined.

Definition classify (row : Row) : RowType :=
  if truthy (MARK_INFO row) && truthy (CUSTOMER row) then Header
  else if truthy (JOB row) then Job
  else if truthy (COMPONENT row) then Component
  else Other.

(** [x is not None] *)
Definition is_not_none (v : value) : bool :=
  match v with
  | VNone => false
  | _ => true
  end.

(** [qty_committed - qty_onhand if qty_committed > qty_onhand else 0]: the
    condition is evaluated first, the subtraction only when it is true. *)
Definition shortage_expr (qty_committed qty_onhand : value) : result value :=
  c ← py_gt qty_committed qty_onhand;
  if c : bool then py_sub qty_committed qty_onhand else Ok (VInt 0).

(** The statements under [if current_job:] up to the dict literal that is
    appended. *)
Definition component_record (row : Row) : result ComponentRecord :=
  let has_po := is_not_none (PURCHASE_ORDER row) in
  let qty_committed := or0 (QTY_COMMITTED row) in
  let qty_onhand := or0 (QTY_ONHAND row) in
  let qty_issued := or0 (QTY_ISSUED row) in
  shortage ← shortage_expr qty_committed qty_onhand;
  Ok {| component := COMPONENT row;
        description := DESCRIPTION row;
        qty_committed := qty_committed;
        qty_issued := qty_issued;
        qty_onhand := qty_onhand;
        has_po := has_po;
        po := PURCHASE_ORDER row;
        vendor := VENDOR row;
        qty_ordered := QTY_ORDER row;
        qty_received := QTY_RECEIVED row;
        date_due := if truthy (DATE_DUE_LINE row)
                    then VStr (py_str (DATE_DUE_LINE row)) else VNone;
        shortage := shortage |}.

(** Body of [if row['MARK_INFO'] and row['CUSTOMER']:]. *)
Definition header_branch (st : State) (row : Row) : State :=
  {| customer_rows := customer_rows st + 1;
     job_rows := job_rows st;
     component_rows := component_rows st;
     other_rows := other_rows st;
     jobs := jobs st;
     customers := set_add (CUSTOMER row) (customers st);
     sales_orders := set_add_if (SALES_ORDER row) (sales_orders st);
     components := components st;
     vendors := vendors st;
     po_numbers := po_numbers st;
     code_sorts := if truthy (CODE_SORT row)
                   then counter_incr (CODE_SORT row) (code_sorts st)
                   else code_sorts st;
     job_components := job_components st;
     current_customer := CUSTOMER row;
     current_job := current_job st;
     current_mark := MARK_INFO row |}.

(** Body of [elif row['JOB']:]. *)
Definition job_branch (st : State) (row : Row) : State :=
  {| customer_rows := customer_rows st;
     job_rows := job_rows st + 1;
     component_rows := component_rows st;
     other_rows := other_rows st;
     jobs := set_add (JOB row) (jobs st);
     customers := customers st;
     sales_orders := sales_orders st;
     components := components st;
     vendors := vendors st;
     po_numbers := po_numbers st;
     code_sorts := code_sorts st;
     job_components := job_components st;
     current_customer := current_customer st;
     current_job := JOB row;
     current_mark := current_mark st |}.

(** Body of [elif row['COMPONENT']:].  The record is computed and appended
    only under [if current_job:]; an exception there ends the run. *)
Definition component_branch (st : State) (row : Row) : result State :=
  jc ← (if truthy (current_job st)
        then rec ← component_record row;
             Ok (dd_append (current_job st) rec (job_components st))
        else Ok (job_components st));
  Ok {| customer_rows := customer_rows st;
        job_rows := job_rows st;
        component_rows := component_rows st + 1;
        other_rows := other_rows st;
        jobs := jobs st;
        customers := customers st;
        sales_orders := sales_orders st;
        components := set_add (COMPONENT row) (components st);
        vendors := set_add_if (VENDOR row) (vendors st);
        po_numbers := set_add_if (PURCHASE_ORDER row) (po_numbers st);
        code_sorts := code_sorts st;
        job_components := jc;
        current_customer := current_customer st;
        current_job := current_job st;
        current_mark := current_mark st |}.

(** Body of the final [else:]. *)
Definition other_branch (st : State) : State :=
  {| customer_rows := customer_rows st;
     job_rows := job_rows st;
     component_rows := component_rows st;
     other_rows := other_rows st + 1;
     jobs := jobs st;
     customers := customers st;
     sales_orders := sales_orders st;
     components := components st;
     vendors := vendors st;
     po_numbers := po_numbers st;
     code_sorts := code_sorts st;
     job_components := job_components st;
     current_customer := current_customer st;
     current_job := current_job st;
     current_mark := current_mark st |}.

(** One iteration of [for row_idx in range(2, ws.max_row + 1)], after the
    [row] dict has been read from the sheet. *)
Definition process_row (st : State) (row : Row) : result State :=
  if truthy (MARK_INFO row) && truthy (CUSTOMER row) then Ok (header_branch st row)
  else if truthy (JOB row) then Ok (job_branch st row)
  else if truthy (COMPONENT row) then component_branch st row
  else Ok (other_branch st).

(** The whole loop over the sheet's data rows, in sheet order; an exception
    in one iteration ends the run. *)
Fixpoint row_loop (st : State) (rows : list Row) : result State :=
  match rows with
  | [] => Ok st
  | row :: rows' => st' ← process_row st row; row_loop st' rows'
  end.

(** ** Purchase-order analysis *)

(** The five counters initialised before the purchase-order loop. *)
Record POTally : Type := mkPOTally {
  total_components_with_po : Z;
  total_components_stock : Z;
  po_received_complete : Z;
  po_partially_received : Z;
  po_not_received : Z
}.

Definition po_init : POTally :=
  {| total_components_with_po := 0; total_components_stock := 0;
     po_received_complete := 0; po_partially_received := 0;
     po_not_received := 0 |}.

(** The three fulfilment states of a purchased component. *)
Inductive POBucket : Type := fully_received | partially_received | not_received.

(** The [if]/[elif]/[else] on [qty_rec] and [qty_ord]; [and] evaluates its
    right operand only when the left one is true. *)
Definition po_bucket (qty_ord qty_rec : value) : result POBucket :=
  full ← (ge ← py_ge qty_rec qty_ord;
          if ge : bool then py_gt qty_ord (VInt 0) else Ok false);
  if full : bool then Ok fully_received
  else
    some ← py_gt qty_rec (VInt 0);
    if some : bool then Ok partially_received else Ok not_received.

(** Body of the inner [for comp in comps] of the purchase-order loop. *)
Definition po_comp (t : POTally) (comp : ComponentRecord) : result POTally :=
  if has_po comp then
    let qty_ord := or0 (qty_ordered comp) in
    let qty_rec := or0 (qty_received comp) in
    b ← po_bucket qty_ord qty_rec;
    Ok match b with
       | fully_received =>
           {| total_components_with_po := total_components_with_po t + 1;
              total_components_stock := total_components_stock t;
              po_received_complete := po_received_complete t + 1;
              po_partially_received := po_partially_received t;
              po_not_received := po_not_received t |}
       | partially_received =>
           {| total_components_with_po := total_components_with_po t + 1;
              total_components_stock := total_components_stock t;
              po_received_complete := po_received_complete t;
              po_partially_received := po_partially_received t + 1;
              po_not_received := po_not_received t |}
       | not_received =>
           {| total_components_with_po := total_components_with_po t + 1;
              total_components_stock := total_components_stock t;
              po_received_complete := po_received_complete t;
              po_partially_received := po_partially_received t;
              po_not_received := po_not_received t + 1 |}
       end
  else
    Ok {| total_components_with_po := total_components_with_po t;
          total_components_stock := total_components_stock t + 0;
          po_received_complete := po_received_complete t;
          po_partially_received := po_partially_received t;
          po_not_received := po_not_received t |}.

(** A loop body run over a list, stopping at the first exception. *)
Fixpoint for_each {S A : Type} (body : S → A → result S) (s : S) (l : list A) : result S :=
  match l with
  | [] => Ok s
  | a :: l' => s' ← body s a; for_each body s' l'
  end.

(** [for job, comps in job_components.items(): for comp in comps: body] *)
Definition for_each_comp {S : Type} (body : S → ComponentRecord → result S)
    (s : S) (d : list (value * list ComponentRecord)) : result S :=
  for_each (λ s item, for_each body s item.2) s d.

Definition po_analysis (d : list (value * list ComponentRecord)) : result POTally :=
  for_each_comp po_comp po_init d.

(** ** Stock availability analysis *)

Record StockTally : Type := mkStockTally {
  stock_sufficient : Z;
  stock_shortage : Z
}.

Definition stock_init : StockTally :=
  {| stock_sufficient := 0; stock_shortage := 0 |}.

(** Body of the inner [for comp in comps] of the stock loop. *)
Definition stock_comp (t : StockTally) (comp : ComponentRecord) : result StockTally :=
  if negb (has_po comp) then
    ge ← py_ge (qty_onhand comp) (qty_committed comp);
    if ge : bool
    then Ok {| stock_sufficient := stock_sufficient t + 1;
               stock_shortage := stock_shortage t |}
    else Ok {| stock_sufficient := stock_sufficient t;
               stock_shortage := stock_shortage t + 1 |}
  else Ok t.

Definition stock_analysis (d : list (value * list ComponentRecord)) : result StockTally :=
  for_each_comp stock_comp stock_init d.

(** ** The whole script *)

Definition is_int (v : value) : bool :=
  match v with VInt _ => true | _ => false end.

Definition is_str (v : value) : bool :=
  match v with VStr _ => true | _ => false end.

(** [sorted(xs)] is only iterated for printing, but it raises [TypeError] as
    soon as two elements of different kinds are compared, which any sort of a
    collection holding both must do. *)
Definition sorted_check (xs : list value) : result unit :=
  if forallb is_int xs || forallb is_str xs || bool_decide (length xs ≤ 1)%nat
  then Ok tt else TypeError.

(** Everything the script has computed when it reaches its last line. *)
Record Report : Type := mkReport {
  final : State;
  po_tally : POTally;
  stock_tally : StockTally
}.

(** The script from the row loop to the end; printing is left out, the
    exceptions that evaluating the printed expressions can raise are not. *)
Definition analyze (rows : list Row) : result Report :=
  st ← row_loop init rows;
  _ ← sorted_check (elements (customers st));
  _ ← sorted_check (elements (sales_orders st));
  _ ← sorted_check (elements (jobs st));
  pt ← po_analysis (job_components st);
  stk ← stock_analysis (job_components st);
  _ ← sorted_check (job_components st).*1;
  Ok {| final := st; po_tally := pt; stock_tally := stk |}.

(** ** Sample rows *)

Definition blank_row : Row :=
  mkRow VNone VNone VNone VNone VNone VNone VNone VNone VNone VNone VNone
        VNone VNone VNone VNone VNone VNone VNone VNone VNone VNone VNone.

(** A row with only the mark, customer, sales-order, code-sort and job
    columns filled in. *)
Definition header_row (mark customer sales_order code_sort job : value) : Row :=
  mkRow VNone VNone sales_order mark VNone customer code_sort job VNone VNone
        VNone VNone VNone VNone VNone VNone VNone VNone VNone VNone VNone VNone.

Definition job_row (job : value) : Row :=
  header_row VNone VNone VNone VNone job.

(** A row with only the component, quantity and purchase-order columns
    filled in. *)
Definition component_row
    (comp committed issued onhand purchase_order vend ordered received : value) : Row :=
  mkRow VNone VNone VNone VNone VNone VNone VNone VNone VNone VNone comp
        VNone VNone committed issued onhand purchase_order vend ordered received
        VNone VNone.

(** A header, a job, one stock component short by 3 and one purchased
    component received in full. *)
Definition sample_sheet : list Row :=
  [ header_row (VStr "M1") (VStr "ACME") VNone VNone VNone;
    job_row (VStr "J100");
    component_row (VStr "C1") (VInt 5) VNone (VInt 2) VNone VNone VNone VNone;
    component_row (VStr "C2") VNone VNone VNone (VStr "PO77") (VStr "V1")
                  (VInt 20) (VInt 20) ].

(** ** Vocabulary of the statements *)

(** A quantity cell that is empty or holds an integer. *)
Definition num_or_none (v : value) : bool :=
  match v with
  | VStr _ => false
  | _ => true
  end.

(** The integer such a cell stands for, an empty cell standing for 0. *)
Definition qty_of (v : value) : Z :=
  match v with
  | VInt z => z
  | _ => 0
  end.

(** The row counter that belongs to a classification. *)
Definition count_of (t : RowType) (st : State) : Z :=
  match t with
  | Header => customer_rows st
  | Job => job_rows st
  | Component => component_rows st
  | Other => other_rows st
  end.

(** The fulfilment counter that belongs to a bucket. *)
Definition bucket_count (b : POBucket) (t : POTally) : Z :=
  match b with
  | fully_received => po_received_complete t
  | partially_received => po_partially_received t
  | not_received => po_not_received t
  end.

Global Instance POBucket_eq_dec : EqDecision POBucket.
Proof. solve_decision. Defined.

(** The three "current" variables. *)
Definition context (st : State) : value * value * value :=
  (current_customer st, current_mark st, current_job st).

(** The six unique-value sets. *)
Definition unique_sets (st : State) :=
  (customers st, jobs st, sales_orders st, components st, vendors st, po_numbers st).

(** Every component record, in the order the tally loops visit them. *)
Definition all_comps (d : list (value * list ComponentRecord)) : list ComponentRecord :=
  concat d.*2.

(** An identifier cell that is empty or holds text. *)
Definition text_or_none (v : value) : bool :=
  match v with
  | VInt _ => false
  | _ => true
  end.

(** 1 if the record's [has_po] flag is [b], else 0. *)
Definition po_flag (b : bool) (c : ComponentRecord) : Z :=
  if decide (has_po c = b) then 1 else 0.

(** Number of records in [l] whose [has_po] flag is [b]. *)
Definition count_po (b : bool) (l : list ComponentRecord) : Z :=
  foldr (λ c n, po_flag b c + n) 0 l.

(** A record whose stored quantities the two tally loops can compare. *)
Definition tally_ready (c : ComponentRecord) : Prop :=
  is_int (qty_committed c) = true ∧ is_int (qty_onhand c) = true
  ∧ num_or_none (qty_ordered c) = true ∧ num_or_none (qty_received c) = true.

(** What the row loop maintains on well-typed sheets: text-only customers,
    sales orders, jobs and per-job keys, and tally-ready records. *)
Definition typed_state (st : State) : Prop :=
  (∀ v, v ∈ customers st → is_str v = true)
  ∧ (∀ v, v ∈ sales_orders st → is_str v = true)
  ∧ (∀ v, v ∈ jobs st → is_str v = true)
  ∧ text_or_none (current_job st) = true
  ∧ Forall (λ item, is_str item.1 = true ∧ Forall tally_ready item.2)
           (job_components st).

(** Rows whose identifier cells are text or empty and whose quantity cells
    are integers or empty. *)
Definition well_typed (row : Row) : bool :=
  text_or_none (CUSTOMER row) && text_or_none (SALES_ORDER row) &&
  text_or_none (JOB row) &&
  num_or_none (QTY_COMMITTED row) && num_or_none (QTY_ONHAND row) &&
  num_or_none (QTY_ORDER row) && num_or_none (QTY_RECEIVED row).

(** The bucket as the specification words it: fully received when
    [received >= ordered] and [ordered > 0], else partially received when
    [received > 0], else not received. *)
Definition spec_bucket (ordered received : Z) : POBucket :=
  if decide (received >= ordered ∧ ordered > 0) then fully_received
  else if decide (received > 0) then partially_received
  else not_received.

(** A header row that also carries a job number. *)
Definition header_with_job : Row :=
  header_row (VStr "M1") (VStr "ACME") VNone VNone (VStr "J1").

(** Rows that neither set nor use the current job: Header and Other rows,
    and Component rows while no job is current. *)
Definition skips_job (st : State) (row : Row) : Prop :=
  classify row = Header ∨ classify row = Other
  ∨ (classify row = Component ∧ truthy (current_job st) = false).

(** ** Example job breakdowns *)

(** The order [sorted] puts values in: integers by value, text by character
    codes.  Python has no order between the kinds; [sorted_check] has
    already raised there, the kind ranking below only makes the relation
    total. *)
Definition value_le (a b : value) : Prop :=
  match a, b with
  | VInt x, VInt y => x ≤ y
  | VStr s, VStr t => String.leb s t = true
  | VNone, _ => True
  | VInt _, VStr _ => True
  | _, _ => False
  end.

Global Instance value_le_dec (a b : value) : Decision (value_le a b).
Proof. destruct a, b; simpl; apply _. Defined.

(** [sorted(xs)] *)
Definition py_sorted (xs : list value) : result (list value) :=
  _ ← sorted_check xs; Ok (merge_sort value_le xs).

(** [any(c['has_po'] for c in comps)] *)
Definition has_any_po (comps : list ComponentRecord) : bool :=
  existsb has_po comps.

(** Body of [for job in sorted(job_components.keys())]: the state is the
    counter [shown] and the jobs printed so far, each with the component
    list printed under it. *)
Definition breakdown_step (d : list (value * list ComponentRecord))
    (acc : nat * list (value * list ComponentRecord)) (job : value)
    : nat * list (value * list ComponentRecord) :=
  let comps := dd_get job d in
  if has_any_po comps && bool_decide (acc.1 < 3)%nat
  then (S acc.1, acc.2 ++ [(job, comps)])
  else acc.

(** The last section of the script: which jobs are printed, in which order. *)
Definition example_breakdowns (d : list (value * list ComponentRecord))
    : result (nat * list (value * list ComponentRecord)) :=
  keys ← py_sorted d.*1;
  Ok (foldl (breakdown_step d) (0%nat, []) keys).

(** ** The sheet survey of [scripts/analyze_xlsx.py] *)

(** A worksheet as the reader presents it: [ws.max_row], [ws.max_column] and
    [ws.cell(row=r, column=c).value], rows and columns numbered from 1. *)
Record Sheet : Type := mkSheet {
  max_row : nat;
  max_column : nat;
  cell_value : nat → nat → value
}.

(** [range(a, b)] *)
Definition py_range (a b : nat) : list nat := seq a (b - a).

(** [[cell.value for cell in ws[row_idx]]] *)
Definition sheet_row (ws : Sheet) (row_idx : nat) : list value :=
  cell_value ws row_idx <$> seq 1 (max_column ws).

(** [[v for v in row_vals if v is not None]] *)
Definition non_empty (row_vals : list value) : list value :=
  filter (λ v, is_not_none v = true) row_vals.

(** The search loop over candidate rows, leaving at the first row with more
    than three non-empty cells. *)
Fixpoint first_header (ws : Sheet) (candidates : list nat) : option nat :=
  match candidates with
  | [] => None
  | row_idx :: rest =>
      if bool_decide (3 < length (non_empty (sheet_row ws row_idx)))%nat
      then Some row_idx
      else first_header ws rest
  end.

(** [header_row] after the search loop; [None] where the script prints that
    it could not find a header row and goes on to the next sheet. *)
Definition find_header_row (ws : Sheet) : option nat :=
  first_header ws (py_range 1 (min 10 (max_row ws + 1))).

(** The [headers] list: column number and name of every non-empty cell of
    the header row. *)
Definition sheet_headers (ws : Sheet) (header : nat) : list (nat * string) :=
  omap (λ i, let v := cell_value ws header i in
             if is_not_none v then Some (i, py_str v) else None)
       (seq 1 (max_column ws)).

(** [any(v is not None for v in row_vals)] on row [row_idx]. *)
Definition has_data (ws : Sheet) (row_idx : nat) : bool :=
  existsb is_not_none (sheet_row ws row_idx).

(** The rows printed as sample data; [row_count] is their number. *)
Definition sample_rows (ws : Sheet) (header : nat) : list nat :=
  let data_start := (header + 1)%nat in
  filter (λ r, has_data ws r = true)
         (py_range data_start (min (data_start + 10) (max_row ws + 1))).

(** [type(val).__name__] *)
Definition type_name (val : value) : string :=
  match val with
  | VNone => "NoneType"
  | VInt _ => "int"
  | VStr _ => "str"
  end.

(** A byte [10xxxxxx], which continues a character begun by an earlier
    byte of the UTF-8 text. *)
Definition utf8_continuation (c : ascii) : bool :=
  match c with
  | Ascii _ _ _ _ _ _ b6 b7 => b7 && negb b6
  end.

(** [len(s)]: the number of characters, one per byte that is not a
    continuation byte. *)
Fixpoint py_len (s : string) : nat :=
  match s with
  | EmptyString => 0%nat
  | String c s' => if utf8_continuation c then py_len s' else S (py_len s')
  end.

(** [s[:n]]: the first [n] characters, each with all its bytes. *)
Fixpoint py_prefix (n : nat) (s : string) : string :=
  match s with
  | EmptyString => EmptyString
  | String c s' =>
      if utf8_continuation c then String c (py_prefix n s')
      else match n with
           | O => EmptyString
           | S n' => String c (py_prefix n' s')
           end
  end.

(** Body of the inner loop of the column analysis, on the cell value read:
    the state is the [types] counter and the [sample_vals] list. *)
Definition column_step (acc : gmap string Z * list string) (val : value)
    : gmap string Z * list string :=
  if is_not_none val then
    (<[ type_name val := default 0 (acc.1 !! type_name val) + 1 ]> acc.1,
     if bool_decide (length acc.2 < 5)%nat
     then acc.2 ++ [py_prefix 50 (py_str val)]
     else acc.2)
  else acc.

(** The cells of column [col_idx] the analysis reads: at most the first
    hundred data rows. *)
Definition column_cells (ws : Sheet) (header col_idx : nat) : list value :=
  let data_start := (header + 1)%nat in
  (λ r, cell_value ws r col_idx)
    <$> py_range data_start (min (data_start + 100) (max_row ws + 1)).

(** [types] and [sample_vals] for one column. *)
Definition column_profile (ws : Sheet) (header col_idx : nat)
    : gmap string Z * list string :=
  foldl column_step (∅, []) (column_cells ws header col_idx).

(** [actual_rows]: the data rows with at least one non-empty cell. *)
Definition actual_rows (ws : Sheet) (header : nat) : nat :=
  length (filter (λ r, has_data ws r = true)
                 (py_range (header + 1) (max_row ws + 1))).

(** A sheet given by its rows, for examples: cell [(r, c)] is the c-th
    entry of the r-th row, empty outside. *)
Definition sheet_of (grid : list (list value)) (columns : nat) : Sheet :=
  {| max_row := length grid;
     max_column := columns;
     cell_value := λ r c,
       match r, c with
       | S r', S c' => default VNone (grid !! r' ≫= (.!! c'))
       | _, _ => VNone
       end |}.

Definition sample_grid : Sheet :=
  sheet_of [ [VStr "Report"; VNone; VNone; VNone];
             [VStr "JOB"; VStr "COMPONENT"; VStr "QTY"; VStr "VENDOR"];
             [VStr "J100"; VNone; VNone; VNone];
             [VNone; VStr "C1"; VInt 5; VNone];
             [VNone; VNone; VNone; VNone];
             [VNone; VStr "C2"; VInt 7; VStr "V1"] ] 4.

(** ** Vocabulary of the further properties *)

(** The rows of a sheet that take a given branch. *)
Definition rows_of (t : RowType) (rows : list Row) : list Row :=
  filter (λ r, classify r = t) rows.

(** The values of column [col] on [rows], empty cells left out. *)
Definition column_values (col : Row → value) (rows : list Row) : gset value :=
  list_to_set (filter (λ v, truthy v = true) (col <$> rows)).

(** The [col] cell of the last row of [rows] that takes branch [t], or [cur]
    if there is none. *)
Definition last_cell (t : RowType) (col : Row → value) (cur : value)
    (rows : list Row) : value :=
  foldl (λ v r, if decide (classify r = t) then col r else v) cur rows.

(** What the row loop maintains about the per-job lists. *)
Definition grouped_state (st : State) : Prop :=
  NoDup (job_components st).*1
  ∧ (∀ k, k ∈ (job_components st).*1 → k ∈ jobs st ∧ truthy k = true)
  ∧ Forall (λ item, item.2 ≠ []) (job_components st)
  ∧ (truthy (current_job st) = true → current_job st ∈ jobs st).

(** Every member of the six unique-value sets is a non-empty value. *)
Definition sets_truthy (st : State) : Prop :=
  ∀ v, v ∈ customers st ∪ jobs st ∪ sales_orders st ∪ components st
         ∪ vendors st ∪ po_numbers st → truthy v = true.

(** When [qty_committed - qty_onhand if qty_committed > qty_onhand else 0]
    raises on two values of the model: one of them is [None], or one is text
    and the other an integer, or both are text and the committed text is
    ordered after the on-hand text (the subtraction is then attempted). *)
Definition shortage_raises (committed onhand : value) : Prop :=
  match committed, onhand with
  | VInt _, VInt _ => False
  | VStr s, VStr t => String.compare s t = Gt
  | _, _ => True
  end.

(** How often [code] is the code sort of a Header row of [rows]. *)
Definition code_sort_hits (code : value) (rows : list Row) : Z :=
  Z.of_nat (length (filter (λ r, CODE_SORT r = code ∧ truthy code = true)
                           (rows_of Header rows))).

(** Committed and on-hand cells that clash on text: after [or 0], one is
    text and the other an integer, or both are text and the committed text is
    ordered after the on-hand text.  Empty cells and empty text count as the
    integer 0. *)
Definition text_clash (committed onhand : value) : Prop :=
  match or0 committed, or0 onhand with
  | VStr _, VInt _ => True
  | VInt _, VStr _ => True
  | VStr s, VStr t => String.compare s t = Gt
  | _, _ => False
  end.

(** A cell that counts as an integer after [or 0]: an integer, an empty
    cell or empty text. *)
Definition int_quantity (v : value) : Prop := is_int (or0 v) = true.

(** The classification as the specification words it, a field being present
    when it is not null: Header when mark and customer are both present,
    else Job when job is present, else Component when component is present,
    else Other. *)
Definition spec_classify (row : Row) : RowType :=
  if is_not_none (MARK_INFO row) && is_not_none (CUSTOMER row) then Header
  else if is_not_none (JOB row) then Job
  else if is_not_none (COMPONENT row) then Component
  else Other.

(** A row whose only filled cell is a job number 0. *)
Definition zero_job_row : Row := job_row (VInt 0).

(** A row with mark 0 and customer ACME. *)
Definition zero_mark_row : Row :=
  header_row (VInt 0) (VStr "ACME") VNone VNone VNone.

(** A purchased record whose ordered or received quantity is still text
    after [or 0], that is, non-empty text. *)
Definition po_text_quantity (c : ComponentRecord) : Prop :=
  has_po c = true
  ∧ (is_str (or0 (qty_ordered c)) = true ∨ is_str (or0 (qty_received c)) = true).

(** A record that the row loop built from some row. *)
Definition built_record (c : ComponentRecord) : Prop :=
  ∃ row, component_record row = Ok c.

(** [sum(c.values())] for a [Counter] keyed by type name. *)
Definition counter_total (c : gmap string Z) : Z :=
  map_fold (λ _ n acc, n + acc) 0 c.

(** * Properties *)

(** ** Python operators on integer and empty cells *)

Lemma or0_num (v : value) : num_or_none v = true → or0 v = VInt (qty_of v).
Proof.
  destruct v as [|z|s]; simpl; try done.
  intros _. unfold or0; simpl. destruct (Z.eqb_spec z 0); simpl; congruence.
Qed.

Lemma or0_none : or0 VNone = VInt 0.
Proof. reflexivity. Qed.

Lemma elem_of_set_add (v : value) (s : gset value) : v ∈ set_add v s.
Proof. unfold set_add. apply elem_of_union. left. by apply elem_of_singleton. Qed.

Lemma elem_of_set_add_if (v : value) (s : gset value) :
  truthy v = true → v ∈ set_add_if v s.
Proof. intros H. unfold set_add_if. rewrite H. apply elem_of_set_add. Qed.

Lemma bind_ok {A B : Type} (m : result A) (k : A → result B) (b : B) :
  m ≫= k = Ok b → ∃ a, m = Ok a ∧ k a = Ok b.
Proof. destruct m as [a|]; simpl; [eauto | discriminate]. Qed.

Lemma shortage_expr_int (c o : Z) :
  shortage_expr (VInt c) (VInt o) = Ok (VInt (Z.max (c - o) 0)).
Proof.
  unfold shortage_expr; simpl.
  destruct (Z.gtb_spec c o); simpl; do 2 f_equal; lia.
Qed.

Lemma component_record_num (row : Row) :
  num_or_none (QTY_COMMITTED row) = true →
  num_or_none (QTY_ONHAND row) = true →
  ∃ rec, component_record row = Ok rec
    ∧ component rec = COMPONENT row
    ∧ qty_committed rec = VInt (qty_of (QTY_COMMITTED row))
    ∧ qty_onhand rec = VInt (qty_of (QTY_ONHAND row))
    ∧ qty_issued rec = or0 (QTY_ISSUED row)
    ∧ qty_ordered rec = QTY_ORDER row
    ∧ qty_received rec = QTY_RECEIVED row
    ∧ has_po rec = is_not_none (PURCHASE_ORDER row)
    ∧ shortage rec =
        VInt (Z.max (qty_of (QTY_COMMITTED row) - qty_of (QTY_ONHAND row)) 0).
Proof.
  intros Hc Ho. unfold component_record.
  rewrite (or0_num _ Hc), (or0_num _ Ho), shortage_expr_int. simpl.
  eexists; split; [reflexivity|]. simpl. repeat split; reflexivity.
Qed.

(** ** Which branch a row takes *)

Lemma process_row_classify (st : State) (row : Row) :
  process_row st row =
    match classify row with
    | Header => Ok (header_branch st row)
    | Job => Ok (job_branch st row)
    | Component => component_branch st row
    | Other => Ok (other_branch st)
    end.
Proof.
  unfold process_row, classify.
  destruct (truthy (MARK_INFO row) && truthy (CUSTOMER row)); [done|].
  destruct (truthy (JOB row)); [done|].
  by destruct (truthy (COMPONENT row)).
Qed.

Lemma component_branch_ok (st st' : State) (row : Row) :
  component_branch st row = Ok st' →
  ∃ jc, st' = {| customer_rows := customer_rows st;
                 job_rows := job_rows st;
                 component_rows := component_rows st + 1;
                 other_rows := other_rows st;
                 jobs := jobs st;
                 customers := customers st;
                 sales_orders := sales_orders st;
                 components := set_add (COMPONENT row) (components st);
                 vendors := set_add_if (VENDOR row) (vendors st);
                 po_numbers := set_add_if (PURCHASE_ORDER row) (po_numbers st);
                 code_sorts := code_sorts st;
                 job_components := jc;
                 current_customer := current_customer st;
                 current_job := current_job st;
                 current_mark := current_mark st |}.
Proof.
  unfold component_branch. intros H.
  apply bind_ok in H as (jc & _ & H). simpl in H. injection H as <-. eauto.
Qed.

Lemma component_branch_no_job (st : State) (row : Row) :
  truthy (current_job st) = false →
  ∃ st', component_branch st row = Ok st'
    ∧ job_components st' = job_components st
    ∧ components st' = set_add (COMPONENT row) (components st)
    ∧ vendors st' = set_add_if (VENDOR row) (vendors st)
    ∧ po_numbers st' = set_add_if (PURCHASE_ORDER row) (po_numbers st)
    ∧ context st' = context st.
Proof.
  intros Hj. unfold component_branch. rewrite Hj. simpl.
  eexists; split; [reflexivity|]. simpl. repeat split; reflexivity.
Qed.

Lemma component_branch_num (st : State) (row : Row) :
  truthy (current_job st) = true →
  num_or_none (QTY_COMMITTED row) = true →
  num_or_none (QTY_ONHAND row) = true →
  ∃ rec st', component_record row = Ok rec
    ∧ component_branch st row = Ok st'
    ∧ job_components st' = dd_append (current_job st) rec (job_components st)
    ∧ context st' = context st.
Proof.
  intros Hj Hc Ho.
  destruct (component_record_num row Hc Ho) as (rec & Hrec & _).
  unfold component_branch. rewrite Hj, Hrec. simpl.
  eexists _, _; split; [reflexivity|]. split; [reflexivity|]. simpl.
  split; reflexivity.
Qed.

(** ** Classification *)

(** C4, as stated, fails: a field is present when it is not null, and a job
    cell holding 0 is not null, yet the row is not classified Job: the chain
    tests the cell's truth value, 0 is false, and the row counts as Other. *)
Lemma zero_job_is_other :
  is_not_none (JOB zero_job_row) = true
  ∧ spec_classify zero_job_row = Job
  ∧ classify zero_job_row = Other
  ∧ process_row init zero_job_row = Ok (other_branch init).
Proof. split_and!; reflexivity. Qed.

(** C4, amended.  Every row takes exactly one branch of the chain, chosen by
    the fixed precedence Header, Job, Component, Other, a field counting as
    present when its cell is true in Python's sense (not [None], not [0],
    not the empty string): the four conditions are mutually exclusive and
    exhaustive, a row that is processed increments the counter of its
    classification by one and leaves the other three alone, no exception
    comes from the classification itself (only the body of the Component
    branch can raise), and a row that matches none of the three shapes
    raises nothing and only counts as Other. *)
Theorem classify_precedence (st : State) (row : Row) :
  let hdr := truthy (MARK_INFO row) = true ∧ truthy (CUSTOMER row) = true in
  (classify row = Header ↔ hdr)
  ∧ (classify row = Job ↔ ¬ hdr ∧ truthy (JOB row) = true)
  ∧ (classify row = Component ↔
       ¬ hdr ∧ truthy (JOB row) = false ∧ truthy (COMPONENT row) = true)
  ∧ (classify row = Other ↔
       ¬ hdr ∧ truthy (JOB row) = false ∧ truthy (COMPONENT row) = false)
  ∧ (∀ st', process_row st row = Ok st' →
       ∀ t, count_of t st' = count_of t st + (if decide (t = classify row) then 1 else 0))
  ∧ (classify row ≠ Component → ∃ st', process_row st row = Ok st')
  ∧ (classify row = Other → process_row st row = Ok (other_branch st)).
Proof.
  simpl. split_and!.
  all: try solve [unfold classify;
            destruct (truthy (MARK_INFO row)), (truthy (CUSTOMER row)),
                     (truthy (JOB row)), (truthy (COMPONENT row));
            simpl; intuition congruence].
  - rewrite process_row_classify. intros st' H t.
    destruct (classify row).
    + injection H as <-. destruct t; simpl; try case_decide; try done; lia.
    + injection H as <-. destruct t; simpl; try case_decide; try done; lia.
    + apply component_branch_ok in H as [jc ->].
      destruct t; simpl; try case_decide; try done; lia.
    + injection H as <-. destruct t; simpl; try case_decide; try done; lia.
  - rewrite process_row_classify. intros H.
    destruct (classify row); [by eexists..|done|by eexists].
  - intros H. by rewrite process_row_classify, H.
Qed.

Lemma classify_precedence_witness :
  classify blank_row = Other ∧ process_row init blank_row = Ok (other_branch init).
Proof.
  split; [reflexivity|].
  apply (classify_precedence init blank_row). reflexivity.
Defined.

(** C5, as stated, fails: a row whose mark cell holds 0 and whose customer
    cell holds a name has both cells set (neither is null), yet it is not a
    Header row, and after it is processed [current_customer] and
    [current_mark] are still [None]. *)
Lemma zero_mark_is_no_header :
  is_not_none (MARK_INFO zero_mark_row) = true
  ∧ is_not_none (CUSTOMER zero_mark_row) = true
  ∧ classify zero_mark_row ≠ Header
  ∧ ∃ st', process_row init zero_mark_row = Ok st'
      ∧ current_customer st' ≠ CUSTOMER zero_mark_row
      ∧ current_mark st' ≠ MARK_INFO zero_mark_row.
Proof.
  split_and!; [reflexivity|reflexivity|discriminate|].
  eexists. split; [reflexivity|]. split; discriminate.
Qed.

(** C5, amended.  A row whose mark and customer cells are both true in
    Python's sense (not [None], not [0], not the empty string) is a Header
    row; processing it cannot fail, and right afterwards [current_customer]
    and [current_mark] are that row's customer and mark, its sales order is
    in [sales_orders] if its cell is true in the same sense, and its code
    sort has been counted once more if its cell is. *)
Theorem header_sets_context (st : State) (row : Row) :
  truthy (MARK_INFO row) = true → truthy (CUSTOMER row) = true →
  classify row = Header
  ∧ ∃ st', process_row st row = Ok st'
      ∧ current_customer st' = CUSTOMER row
      ∧ current_mark st' = MARK_INFO row
      ∧ customer_rows st' = customer_rows st + 1
      ∧ CUSTOMER row ∈ customers st'
      ∧ (truthy (SALES_ORDER row) = true → SALES_ORDER row ∈ sales_orders st')
      ∧ (truthy (CODE_SORT row) = true →
           code_sorts st' !! CODE_SORT row
           = Some (default 0 (code_sorts st !! CODE_SORT row) + 1)).
Proof.
  intros Hm Hc.
  assert (classify row = Header) as Hcl by (unfold classify; by rewrite Hm, Hc).
  split; [done|]. rewrite process_row_classify, Hcl.
  eexists; split; [reflexivity|]. simpl. repeat split.
  - apply elem_of_set_add.
  - apply elem_of_set_add_if.
  - intros Hs. rewrite Hs. unfold counter_incr. apply lookup_insert_eq.
Qed.

Lemma header_sets_context_witness :
  let row := header_row (VStr "M1") (VStr "ACME") (VStr "SO9") (VStr "A") VNone in
  truthy (MARK_INFO row) = true ∧ truthy (CUSTOMER row) = true
  ∧ classify row = Header
  ∧ ∃ st', process_row init row = Ok st'
      ∧ current_customer st' = CUSTOMER row
      ∧ current_mark st' = MARK_INFO row
      ∧ customer_rows st' = customer_rows init + 1
      ∧ CUSTOMER row ∈ customers st'
      ∧ (truthy (SALES_ORDER row) = true → SALES_ORDER row ∈ sales_orders st')
      ∧ (truthy (CODE_SORT row) = true →
           code_sorts st' !! CODE_SORT row
           = Some (default 0 (code_sorts init !! CODE_SORT row) + 1)).
Proof.
  intros row. split; [reflexivity|]. split; [reflexivity|].
  apply (header_sets_context init row); reflexivity.
Defined.

(** C7.  Processing a row classified Component or Other leaves
    [current_customer], [current_mark] and [current_job] as they were.  Such
    a row is processed without an exception whenever it is Other, or no job
    is current, or its committed and on-hand cells are integers or empty. *)
Theorem component_other_keep_context (st : State) (row : Row) :
  classify row = Component ∨ classify row = Other →
  (∀ st', process_row st row = Ok st' →
     current_customer st' = current_customer st
     ∧ current_mark st' = current_mark st
     ∧ current_job st' = current_job st)
  ∧ (classify row = Other ∨ truthy (current_job st) = false
     ∨ (num_or_none (QTY_COMMITTED row) = true ∧ num_or_none (QTY_ONHAND row) = true) →
     ∃ st', process_row st row = Ok st').
Proof.
  intros Hcl. rewrite process_row_classify. split.
  - intros st' H. destruct Hcl as [Hcl|Hcl]; rewrite Hcl in H.
    + by apply component_branch_ok in H as [jc ->].
    + by injection H as <-.
  - intros Hok. destruct Hcl as [Hcl|Hcl]; rewrite Hcl; [|eauto].
    destruct Hok as [Ho|[Hj|[Hc Ho]]]; [congruence| |].
    + destruct (component_branch_no_job st row Hj) as (st' & H & _). eauto.
    + destruct (truthy (current_job st)) eqn:Hj.
      * destruct (component_branch_num st row Hj Hc Ho) as (? & st' & _ & H & _).
        eauto.
      * destruct (component_branch_no_job st row Hj) as (st' & H & _). eauto.
Qed.

Lemma component_other_keep_context_witness :
  let st := job_branch init (job_row (VStr "J100")) in
  let row := component_row (VStr "C1") (VInt 5) VNone (VInt 2) VNone VNone VNone VNone in
  (classify row = Component ∨ classify row = Other)
  ∧ (∀ st', process_row st row = Ok st' →
       current_customer st' = current_customer st
       ∧ current_mark st' = current_mark st
       ∧ current_job st' = current_job st).
Proof.
  intros st row. split; [left; reflexivity|].
  apply (component_other_keep_context st row). left; reflexivity.
Defined.

(** ** Unique-value sets *)

(** C1, as stated, fails: a Header row that also carries a job number is
    processed by the Header branch alone, and its job never reaches [jobs]. *)
Lemma header_job_not_recorded :
  classify header_with_job = Header
  ∧ truthy (JOB header_with_job) = true
  ∧ ∃ st', process_row init header_with_job = Ok st'
      ∧ JOB header_with_job ∉ jobs st'.
Proof.
  split; [reflexivity|]. split; [reflexivity|].
  eexists; split; [reflexivity|]. simpl. apply not_elem_of_empty.
Qed.

(** C1, amended.  A processed row updates only the sets of its own branch:
    a Header row adds its customer and, if set, its sales order; a Job row
    adds its job; a Component row adds its component and, if set, its vendor
    and purchase order; any other row adds nothing.  Fields that belong to
    another branch are ignored. *)
Theorem sets_updated_by_branch (st st' : State) (row : Row) :
  process_row st row = Ok st' →
  unique_sets st' =
    match classify row with
    | Header =>
        (set_add (CUSTOMER row) (customers st), jobs st,
         set_add_if (SALES_ORDER row) (sales_orders st),
         components st, vendors st, po_numbers st)
    | Job =>
        (customers st, set_add (JOB row) (jobs st), sales_orders st,
         components st, vendors st, po_numbers st)
    | Component =>
        (customers st, jobs st, sales_orders st,
         set_add (COMPONENT row) (components st),
         set_add_if (VENDOR row) (vendors st),
         set_add_if (PURCHASE_ORDER row) (po_numbers st))
    | Other => unique_sets st
    end.
Proof.
  rewrite process_row_classify. intros H. destruct (classify row).
  - by injection H as <-.
  - by injection H as <-.
  - by apply component_branch_ok in H as [jc ->].
  - by injection H as <-.
Qed.

Lemma sets_updated_by_branch_witness :
  let st' := header_branch init header_with_job in
  process_row init header_with_job = Ok st'
  ∧ unique_sets st' =
      (set_add (VStr "ACME") ∅, ∅, ∅, ∅, ∅, ∅).
Proof.
  intros st'. split; [reflexivity|].
  apply (sets_updated_by_branch init st' header_with_job). reflexivity.
Defined.

(** ** Purchase-order buckets *)

Lemma po_bucket_int (o r : Z) :
  po_bucket (VInt o) (VInt r) = Ok (spec_bucket o r).
Proof.
  unfold po_bucket, spec_bucket. simpl.
  destruct (Z.geb_spec r o), (Z.gtb_spec o 0), (Z.gtb_spec r 0); simpl;
    repeat case_decide; try reflexivity; lia.
Qed.

Lemma po_comp_num (t : POTally) (comp : ComponentRecord) :
  has_po comp = true →
  num_or_none (qty_ordered comp) = true →
  num_or_none (qty_received comp) = true →
  let b := spec_bucket (qty_of (qty_ordered comp)) (qty_of (qty_received comp)) in
  po_bucket (or0 (qty_ordered comp)) (or0 (qty_received comp)) = Ok b
  ∧ ∃ t', po_comp t comp = Ok t'
      ∧ total_components_with_po t' = total_components_with_po t + 1
      ∧ total_components_stock t' = total_components_stock t
      ∧ ∀ b', bucket_count b' t'
              = bucket_count b' t + (if decide (b' = b) then 1 else 0).
Proof.
  intros Hpo Ho Hr b.
  assert (po_bucket (or0 (qty_ordered comp)) (or0 (qty_received comp)) = Ok b) as Hb
    by (rewrite (or0_num _ Ho), (or0_num _ Hr); apply po_bucket_int).
  split; [done|]. unfold po_comp. rewrite Hpo, Hb. simpl.
  eexists; split; [reflexivity|].
  destruct b; simpl; split_and!; try reflexivity;
    intros []; simpl; lia.
Qed.

(** C2.  For a component record with a purchase order whose ordered and
    received quantities are integers or empty (empty counting as 0), the
    tally step raises nothing and puts the record in exactly one bucket, the
    one the specification names: one of the three fulfilment counters grows
    by one, the other two stay, and the with-PO total grows by one.  The four
    sample pairs land where the specification says. *)
Theorem po_bucket_exclusive :
  (∀ (t : POTally) (comp : ComponentRecord),
     has_po comp = true →
     num_or_none (qty_ordered comp) = true →
     num_or_none (qty_received comp) = true →
     let b := spec_bucket (qty_of (qty_ordered comp)) (qty_of (qty_received comp)) in
     po_bucket (or0 (qty_ordered comp)) (or0 (qty_received comp)) = Ok b
     ∧ ∃ t', po_comp t comp = Ok t'
         ∧ total_components_with_po t' = total_components_with_po t + 1
         ∧ total_components_stock t' = total_components_stock t
         ∧ ∀ b', bucket_count b' t'
                 = bucket_count b' t + (if decide (b' = b) then 1 else 0))
  ∧ po_bucket (VInt 10) (VInt 10) = Ok fully_received
  ∧ po_bucket (VInt 10) (VInt 4) = Ok partially_received
  ∧ po_bucket (VInt 10) (VInt 0) = Ok not_received
  ∧ po_bucket (VInt 0) (VInt 0) = Ok not_received.
Proof.
  split_and!; try reflexivity. apply po_comp_num.
Qed.

Lemma po_bucket_exclusive_witness :
  let comp := mkComp (VStr "C2") VNone (VInt 0) (VInt 0) (VInt 0) true
                     (VStr "PO77") (VStr "V1") (VInt 20) (VInt 20) VNone (VInt 0) in
  has_po comp = true
  ∧ num_or_none (qty_ordered comp) = true
  ∧ num_or_none (qty_received comp) = true
  ∧ po_bucket (or0 (qty_ordered comp)) (or0 (qty_received comp)) = Ok fully_received.
Proof.
  intros comp. do 3 (split; [reflexivity|]).
  apply (proj1 po_bucket_exclusive po_init comp); reflexivity.
Defined.

(** ** Shortage *)

(** C3.  For non-negative integer committed and on-hand quantities the
    shortage stored in the component record is [max (committed - onhand) 0];
    the three sample pairs give 6, 0 and 0. *)
Theorem shortage_is_max :
  (∀ (row : Row) (committed onhand : Z),
     QTY_COMMITTED row = VInt committed → QTY_ONHAND row = VInt onhand →
     0 ≤ committed → 0 ≤ onhand →
     shortage_expr (or0 (QTY_COMMITTED row)) (or0 (QTY_ONHAND row))
       = Ok (VInt (Z.max (committed - onhand) 0))
     ∧ ∃ rec, component_record row = Ok rec
         ∧ shortage rec = VInt (Z.max (committed - onhand) 0))
  ∧ shortage_expr (VInt 10) (VInt 4) = Ok (VInt 6)
  ∧ shortage_expr (VInt 3) (VInt 3) = Ok (VInt 0)
  ∧ shortage_expr (VInt 0) (VInt 5) = Ok (VInt 0).
Proof.
  split_and!; try reflexivity.
  intros row c o Hc Ho _ _.
  assert (num_or_none (QTY_COMMITTED row) = true) as Hc' by by rewrite Hc.
  assert (num_or_none (QTY_ONHAND row) = true) as Ho' by by rewrite Ho.
  split.
  - rewrite (or0_num _ Hc'), (or0_num _ Ho'), Hc, Ho. apply shortage_expr_int.
  - destruct (component_record_num row Hc' Ho') as (rec & Hrec & H).
    exists rec. split; [done|].
    destruct H as (_ & _ & _ & _ & _ & _ & _ & ->). by rewrite Hc, Ho.
Qed.

Lemma shortage_is_max_witness :
  let row := component_row (VStr "C1") (VInt 5) VNone (VInt 2) VNone VNone VNone VNone in
  QTY_COMMITTED row = VInt 5 ∧ QTY_ONHAND row = VInt 2 ∧ 0 ≤ 5 ∧ 0 ≤ 2
  ∧ shortage_expr (or0 (QTY_COMMITTED row)) (or0 (QTY_ONHAND row))
      = Ok (VInt (Z.max (5 - 2) 0)).
Proof.
  intros row. do 2 (split; [reflexivity|]). do 2 (split; [lia|]).
  apply (proj1 shortage_is_max row 5 2); try reflexivity; lia.
Defined.

(** ** Runs of the row loop *)

Lemma row_loop_app (st : State) (l1 l2 : list Row) :
  row_loop st (l1 ++ l2) = st1 ← row_loop st l1; row_loop st1 l2.
Proof.
  revert st. induction l1 as [|r l1 IH]; intros st; simpl; [done|].
  destruct (process_row st r) as [st1|]; simpl; [apply IH | done].
Qed.

Lemma process_row_skips_job (st : State) (row : Row) :
  skips_job st row →
  ∃ st', process_row st row = Ok st'
    ∧ current_job st' = current_job st
    ∧ job_components st' = job_components st.
Proof.
  rewrite process_row_classify. intros [H|[H|[H Hj]]]; rewrite H.
  - by eexists.
  - by eexists.
  - destruct (component_branch_no_job st row Hj) as (st' & Hst & Hjc & _ & _ & _ & Hctx).
    exists st'. split_and!; [done| |done]. by injection Hctx.
Qed.

Lemma row_loop_skips_job (st : State) (rows : list Row) :
  Forall (skips_job st) rows →
  ∃ st', row_loop st rows = Ok st'
    ∧ current_job st' = current_job st
    ∧ job_components st' = job_components st.
Proof.
  revert st. induction rows as [|r rows IH]; intros st Hall; simpl.
  - by eexists.
  - apply Forall_cons in Hall as [Hr Hall].
    destruct (process_row_skips_job st r Hr) as (st1 & -> & Hj & Hjc). simpl.
    destruct (IH st1) as (st' & Hst & Hj' & Hjc').
    { eapply Forall_impl; [exact Hall|]. unfold skips_job. intros x.
      rewrite Hj. done. }
    exists st'. split_and!; [done|congruence|congruence].
Qed.

Lemma dd_get_append (k : value) (x : ComponentRecord)
    (d : list (value * list ComponentRecord)) :
  dd_get k (dd_append k x d) = dd_get k d ++ [x].
Proof.
  induction d as [|[k' l] d IH]; simpl.
  - by rewrite decide_True.
  - destruct (decide (k' = k)) as [->|Hne]; simpl.
    + by rewrite decide_True.
    + by rewrite decide_False.
Qed.

Lemma dd_get_append_ne (k k' : value) (x : ComponentRecord)
    (d : list (value * list ComponentRecord)) :
  k' ≠ k → dd_get k' (dd_append k x d) = dd_get k' d.
Proof.
  intros Hne. induction d as [|[k0 l] d IH]; simpl.
  - by rewrite decide_False by congruence.
  - destruct (decide (k0 = k)) as [->|Hk]; simpl.
    + by rewrite !decide_False by congruence.
    + by rewrite IH.
Qed.

(** ** Orphaned component rows *)

(** C6.  In any run from the initial state, a Component row that comes
    before every Job row is processed without an exception and is appended
    to no job's list ([job_components] is still empty after it), while its
    component and, if set, its vendor and purchase order are in the global
    sets. *)
Theorem orphan_component (pre : list Row) (row : Row) :
  Forall (λ r, classify r ≠ Job) pre →
  classify row = Component →
  ∃ st st', row_loop init pre = Ok st
    ∧ process_row st row = Ok st'
    ∧ row_loop init (pre ++ [row]) = Ok st'
    ∧ job_components st' = []
    ∧ COMPONENT row ∈ components st'
    ∧ (truthy (VENDOR row) = true → VENDOR row ∈ vendors st')
    ∧ (truthy (PURCHASE_ORDER row) = true → PURCHASE_ORDER row ∈ po_numbers st').
Proof.
  intros Hpre Hrow.
  destruct (row_loop_skips_job init pre) as (st & Hst & Hj & Hjc).
  { eapply Forall_impl; [exact Hpre|]. intros r Hr. unfold skips_job. simpl in *.
    destruct (classify r); [by left|congruence|right; right; by split|by right; left]. }
  assert (truthy (current_job st) = false) as Hj' by by rewrite Hj.
  destruct (component_branch_no_job st row Hj')
    as (st' & Hst' & Hjc' & Hc & Hv & Hp & _).
  exists st, st'. rewrite process_row_classify, Hrow, row_loop_app, Hst. simpl.
  rewrite process_row_classify, Hrow, Hst'. split_and!; try done.
  - by rewrite Hjc', Hjc.
  - rewrite Hc. apply elem_of_set_add.
  - rewrite Hv. apply elem_of_set_add_if.
  - rewrite Hp. apply elem_of_set_add_if.
Qed.

Lemma orphan_component_witness :
  let pre := [header_row (VStr "M1") (VStr "ACME") VNone VNone VNone; blank_row] in
  let row := component_row (VStr "C1") (VStr "many") VNone (VInt 2)
                           (VStr "PO77") (VStr "V1") VNone VNone in
  Forall (λ r, classify r ≠ Job) pre
  ∧ classify row = Component
  ∧ ∃ st st', row_loop init pre = Ok st
      ∧ process_row st row = Ok st'
      ∧ row_loop init (pre ++ [row]) = Ok st'
      ∧ job_components st' = []
      ∧ COMPONENT row ∈ components st'
      ∧ (truthy (VENDOR row) = true → VENDOR row ∈ vendors st')
      ∧ (truthy (PURCHASE_ORDER row) = true → PURCHASE_ORDER row ∈ po_numbers st').
Proof.
  intros pre row.
  assert (Forall (λ r, classify r ≠ Job) pre) as Hpre
    by (repeat constructor; intros H; vm_compute in H; discriminate H).
  split; [exact Hpre|]. split; [reflexivity|].
  apply (orphan_component pre row Hpre). reflexivity.
Defined.

(** ** Empty quantity cells *)

Lemma stock_comp_int (t : StockTally) (comp : ComponentRecord) (c o : Z) :
  qty_committed comp = VInt c → qty_onhand comp = VInt o →
  ∃ t', stock_comp t comp = Ok t'.
Proof.
  intros Hc Ho. unfold stock_comp. rewrite Hc, Ho. simpl.
  destruct (has_po comp); simpl; [eauto|]. destruct (o >=? c); eauto.
Qed.

Lemma po_comp_total (t : POTally) (comp : ComponentRecord) :
  num_or_none (qty_ordered comp) = true →
  num_or_none (qty_received comp) = true →
  ∃ t', po_comp t comp = Ok t'.
Proof.
  intros Ho Hr. destruct (has_po comp) eqn:Hpo.
  - destruct (po_comp_num t comp Hpo Ho Hr) as (_ & t' & H & _). eauto.
  - unfold po_comp. rewrite Hpo. eauto.
Qed.

(** C8.  A Component row whose five quantity cells are each empty or an
    integer is processed without an exception, whatever the state.  In the
    record built from it the committed, on-hand and issued quantities are
    integers, an empty cell having become 0, and the shortage is computed
    from those integers; the ordered and received cells are stored as they
    are and become 0 at [or 0] in the purchase-order tally.  Both tally steps
    then run on the record without an exception and bucket it by those
    integers: the purchase-order step puts a record with a purchase order
    in the bucket of its ordered and received quantities, empty counting as
    0, and leaves the counters alone otherwise; the stock step counts a
    record without a purchase order as sufficient exactly when its on-hand
    quantity is at least its committed one, empty counting as 0. *)
Theorem absent_quantities_are_zero (st : State) (row : Row) :
  classify row = Component →
  num_or_none (QTY_COMMITTED row) = true →
  num_or_none (QTY_ONHAND row) = true →
  num_or_none (QTY_ISSUED row) = true →
  num_or_none (QTY_ORDER row) = true →
  num_or_none (QTY_RECEIVED row) = true →
  ∃ rec st', component_record row = Ok rec
    ∧ process_row st row = Ok st'
    ∧ qty_committed rec = VInt (qty_of (QTY_COMMITTED row))
    ∧ qty_onhand rec = VInt (qty_of (QTY_ONHAND row))
    ∧ qty_issued rec = VInt (qty_of (QTY_ISSUED row))
    ∧ or0 (qty_ordered rec) = VInt (qty_of (QTY_ORDER row))
    ∧ or0 (qty_received rec) = VInt (qty_of (QTY_RECEIVED row))
    ∧ shortage rec
      = VInt (Z.max (qty_of (QTY_COMMITTED row) - qty_of (QTY_ONHAND row)) 0)
    ∧ has_po rec = is_not_none (PURCHASE_ORDER row)
    ∧ (∀ t, ∃ t', po_comp t rec = Ok t'
         ∧ (has_po rec = true →
              total_components_with_po t' = total_components_with_po t + 1
              ∧ ∀ b, bucket_count b t'
                     = bucket_count b t
                       + (if decide (b = spec_bucket (qty_of (QTY_ORDER row))
                                                     (qty_of (QTY_RECEIVED row)))
                          then 1 else 0))
         ∧ (has_po rec = false →
              total_components_with_po t' = total_components_with_po t
              ∧ ∀ b, bucket_count b t' = bucket_count b t))
    ∧ (∀ t, ∃ t', stock_comp t rec = Ok t'
         ∧ stock_sufficient t'
           = stock_sufficient t
             + (if negb (has_po rec)
                   && (qty_of (QTY_ONHAND row) >=? qty_of (QTY_COMMITTED row))
                then 1 else 0)
         ∧ stock_shortage t'
           = stock_shortage t
             + (if negb (has_po rec)
                   && negb (qty_of (QTY_ONHAND row) >=? qty_of (QTY_COMMITTED row))
                then 1 else 0)).
Proof.
  intros Hcl Hc Ho Hi Hord Hrec.
  destruct (component_record_num row Hc Ho)
    as (rec & Hr & _ & Hqc & Hqo & Hqi & Hqord & Hqrec & Hpo & Hs).
  assert (∃ st', process_row st row = Ok st') as [st' Hst'].
  { rewrite process_row_classify, Hcl. destruct (truthy (current_job st)) eqn:Hj.
    - destruct (component_branch_num st row Hj Hc Ho) as (? & st' & _ & H & _). eauto.
    - destruct (component_branch_no_job st row Hj) as (st' & H & _). eauto. }
  exists rec, st'. split_and!; try done.
  - by rewrite Hqi, (or0_num _ Hi).
  - by rewrite Hqord, (or0_num _ Hord).
  - by rewrite Hqrec, (or0_num _ Hrec).
  - intros t. destruct (has_po rec) eqn:Hp.
    + destruct (po_comp_num t rec Hp) as (_ & t' & Ht' & Hw & _ & Hb);
        [congruence..|].
      exists t'. rewrite Hqord, Hqrec in Hb. split_and!; [done|done|done].
    + unfold po_comp. rewrite Hp. eexists. split; [reflexivity|].
      split; [done|]. intros _. simpl. split; [done|]. by intros [].
  - intros t. unfold stock_comp. rewrite Hqc, Hqo. simpl.
    destruct (has_po rec); simpl.
    + exists t. split_and!; [done|lia|lia].
    + destruct (qty_of (QTY_ONHAND row) >=? qty_of (QTY_COMMITTED row));
        eexists; split_and!; try reflexivity; simpl; lia.
Qed.

Lemma absent_quantities_are_zero_witness :
  let st := job_branch init (job_row (VStr "J100")) in
  let row := component_row (VStr "C1") VNone VNone VNone (VStr "PO1") VNone VNone VNone in
  classify row = Component
  ∧ num_or_none (QTY_COMMITTED row) = true
  ∧ num_or_none (QTY_ONHAND row) = true
  ∧ num_or_none (QTY_ISSUED row) = true
  ∧ num_or_none (QTY_ORDER row) = true
  ∧ num_or_none (QTY_RECEIVED row) = true
  ∧ ∃ rec st' t', component_record row = Ok rec
      ∧ process_row st row = Ok st'
      ∧ qty_committed rec = VInt 0
      ∧ qty_onhand rec = VInt 0
      ∧ qty_issued rec = VInt 0
      ∧ or0 (qty_ordered rec) = VInt 0
      ∧ or0 (qty_received rec) = VInt 0
      ∧ shortage rec = VInt 0
      ∧ po_comp po_init rec = Ok t'
      ∧ bucket_count not_received t' = 1
      ∧ bucket_count fully_received t' = 0.
Proof.
  intros st row. do 6 (split; [reflexivity|]).
  destruct (absent_quantities_are_zero st row)
    as (rec & st' & Hrec & Hst' & Hc & Ho & Hi & Hord & Hrcv & Hs & Hpo & Hpoc & _);
    try reflexivity.
  destruct (Hpoc po_init) as (t' & Ht' & Hyes & _).
  destruct (Hyes Hpo) as [_ Hb].
  exists rec, st', t'. do 9 (split; [assumption|]).
  split; [apply (Hb not_received)|apply (Hb fully_received)].
Defined.

(** ** Header rows and the current job *)

(** C10.  A Header row is processed without an exception and leaves
    [current_job] and the per-job lists as they were.  Hence, in a run that
    has just processed a Job row, any Header rows that follow do not end that
    job: a Component row coming after them (its committed and on-hand cells
    integers or empty) is appended, last, to the list of that earlier job,
    and to no other list. *)
Theorem header_keeps_current_job :
  (∀ (st : State) (row : Row),
     classify row = Header →
     ∃ st', process_row st row = Ok st'
       ∧ current_job st' = current_job st
       ∧ job_components st' = job_components st)
  ∧ (∀ (st : State) (job : Row) (headers : list Row) (comp : Row),
       classify job = Job →
       Forall (λ r, classify r = Header) headers →
       classify comp = Component →
       num_or_none (QTY_COMMITTED comp) = true →
       num_or_none (QTY_ONHAND comp) = true →
       ∃ rec st', component_record comp = Ok rec
         ∧ row_loop st (job :: headers ++ [comp]) = Ok st'
         ∧ current_job st' = JOB job
         ∧ job_components st' = dd_append (JOB job) rec (job_components st)
         ∧ dd_get (JOB job) (job_components st')
           = dd_get (JOB job) (job_components st) ++ [rec]
         ∧ ∀ k, k ≠ JOB job →
             dd_get k (job_components st') = dd_get k (job_components st)).
Proof.
  split.
  - intros st row H. apply process_row_skips_job. by left.
  - intros st job headers comp Hjob Hhs Hcomp Hc Ho.
    assert (truthy (JOB job) = true) as Htj.
    { revert Hjob. unfold classify.
      destruct (truthy (MARK_INFO job) && truthy (CUSTOMER job)); [done|].
      by destruct (truthy (JOB job)); [|destruct (truthy (COMPONENT job))]. }
    set (st1 := job_branch st job).
    destruct (row_loop_skips_job st1 headers) as (st2 & Hst2 & Hj2 & Hjc2).
    { eapply Forall_impl; [exact Hhs|]. intros r Hr. by left. }
    assert (truthy (current_job st2) = true) as Hj by by rewrite Hj2.
    destruct (component_branch_num st2 comp Hj Hc Ho)
      as (rec & st' & Hrec & Hst' & Hjc' & Hctx).
    exists rec, st'. split; [done|].
    assert (job_components st' = dd_append (JOB job) rec (job_components st)) as Hjc.
    { by rewrite Hjc', Hj2, Hjc2. }
    split_and!; [| |done| |].
    + simpl. rewrite process_row_classify, Hjob. simpl. fold st1.
      rewrite row_loop_app, Hst2. simpl.
      by rewrite process_row_classify, Hcomp, Hst'.
    + injection Hctx as _ _ ->. by rewrite Hj2.
    + rewrite Hjc. apply dd_get_append.
    + intros k Hk. rewrite Hjc. by apply dd_get_append_ne.
Qed.

Lemma header_keeps_current_job_witness :
  let job := job_row (VStr "J100") in
  let headers := [header_row (VStr "M2") (VStr "BOLT") VNone VNone VNone] in
  let comp := component_row (VStr "C1") (VInt 5) VNone (VInt 2) VNone VNone VNone VNone in
  classify job = Job
  ∧ Forall (λ r, classify r = Header) headers
  ∧ classify comp = Component
  ∧ num_or_none (QTY_COMMITTED comp) = true
  ∧ num_or_none (QTY_ONHAND comp) = true
  ∧ ∃ rec st', component_record comp = Ok rec
      ∧ row_loop init (job :: headers ++ [comp]) = Ok st'
      ∧ current_job st' = VStr "J100"
      ∧ job_components st' = dd_append (VStr "J100") rec []
      ∧ dd_get (VStr "J100") (job_components st') = [] ++ [rec]
      ∧ ∀ k, k ≠ VStr "J100" → dd_get k (job_components st') = [].
Proof.
  intros job headers comp.
  assert (Forall (λ r, classify r = Header) headers) as Hhs
    by (repeat constructor).
  split; [reflexivity|]. split; [exact Hhs|]. do 3 (split; [reflexivity|]).
  apply (proj2 header_keeps_current_job init job headers comp);
    try reflexivity. exact Hhs.
Defined.

(** ** The tally loops *)

Lemma for_each_app {S A : Type} (body : S → A → result S) (s : S) (l1 l2 : list A) :
  for_each body s (l1 ++ l2) = s1 ← for_each body s l1; for_each body s1 l2.
Proof.
  revert s. induction l1 as [|a l1 IH]; intros s; simpl; [done|].
  destruct (body s a) as [s1|]; simpl; [apply IH | done].
Qed.

(** The nested loops visit the records of [all_comps] one after another. *)
Lemma for_each_comp_flat {S : Type} (body : S → ComponentRecord → result S)
    (s : S) (d : list (value * list ComponentRecord)) :
  for_each_comp body s d = for_each body s (all_comps d).
Proof.
  unfold for_each_comp, all_comps. revert s.
  induction d as [|[k l] d IH]; intros s; simpl; [done|].
  rewrite for_each_app. destruct (for_each body s l) as [s1|]; simpl; [apply IH | done].
Qed.

(** A quantity that each iteration changes by a weight of the visited
    element has changed, after the loop, by the sum of the weights. *)
Lemma for_each_measure {S A : Type} (body : S → A → result S)
    (m : S → Z) (w : A → Z) :
  (∀ s a s', body s a = Ok s' → m s' = m s + w a) →
  ∀ l s s', for_each body s l = Ok s' → m s' = m s + foldr (λ a n, w a + n) 0 l.
Proof.
  intros Hstep. induction l as [|a l IH]; intros s s' H; simpl in *.
  - injection H as <-. lia.
  - apply bind_ok in H as (s1 & H1 & H2).
    rewrite (IH _ _ H2), (Hstep _ _ _ H1). lia.
Qed.

Lemma for_each_total {S A : Type} (body : S → A → result S) (P : A → Prop) :
  (∀ s a, P a → ∃ s', body s a = Ok s') →
  ∀ l s, Forall P l → ∃ s', for_each body s l = Ok s'.
Proof.
  intros Hstep. induction l as [|a l IH]; intros s Hl; simpl.
  - eauto.
  - apply Forall_cons in Hl as [Ha Hl].
    destruct (Hstep s a Ha) as [s1 ->]. simpl. by apply IH.
Qed.

Lemma po_comp_ok (t t' : POTally) (comp : ComponentRecord) :
  po_comp t comp = Ok t' →
  total_components_stock t' = total_components_stock t + 0
  ∧ total_components_with_po t' = total_components_with_po t + po_flag true comp.
Proof.
  unfold po_comp, po_flag. destruct (has_po comp); simpl.
  - intros H. apply bind_ok in H as (b & _ & H). injection H as <-.
    destruct b; simpl; lia.
  - intros H. injection H as <-. simpl. lia.
Qed.

Lemma stock_comp_ok (t t' : StockTally) (comp : ComponentRecord) :
  stock_comp t comp = Ok t' →
  stock_sufficient t' + stock_shortage t'
  = stock_sufficient t + stock_shortage t + po_flag false comp.
Proof.
  unfold stock_comp, po_flag. destruct (has_po comp); simpl.
  - intros H. injection H as <-. lia.
  - intros H. apply bind_ok in H as (b & _ & H).
    destruct b; injection H as <-; simpl; lia.
Qed.

Lemma foldr_zero {A : Type} (l : list A) : foldr (λ _ n, 0 + n) 0 l = 0.
Proof. induction l as [|a l IH]; simpl; [done | exact IH]. Qed.

Lemma po_analysis_ok (d : list (value * list ComponentRecord)) (t : POTally) :
  po_analysis d = Ok t →
  total_components_stock t = 0
  ∧ total_components_with_po t = count_po true (all_comps d).
Proof.
  unfold po_analysis. rewrite for_each_comp_flat. intros H. split.
  - rewrite (for_each_measure po_comp total_components_stock (λ _, 0)
               (λ s a s' H, proj1 (po_comp_ok s s' a H)) _ _ _ H).
    simpl. apply (foldr_zero (all_comps d)).
  - rewrite (for_each_measure po_comp total_components_with_po (po_flag true)
               (λ s a s' H, proj2 (po_comp_ok s s' a H)) _ _ _ H).
    simpl. reflexivity.
Qed.

Lemma stock_analysis_ok (d : list (value * list ComponentRecord)) (t : StockTally) :
  stock_analysis d = Ok t →
  stock_sufficient t + stock_shortage t = count_po false (all_comps d).
Proof.
  unfold stock_analysis. rewrite for_each_comp_flat. intros H.
  rewrite (for_each_measure stock_comp (λ t, stock_sufficient t + stock_shortage t)
             (po_flag false) (λ s a s' H, stock_comp_ok s s' a H) _ _ _ H).
  simpl. reflexivity.
Qed.

(** ** Well-typed sheets run to the end *)

Lemma truthy_text_is_str (v : value) :
  truthy v = true → text_or_none v = true → is_str v = true.
Proof. by destruct v. Qed.

Lemma typed_init : typed_state init.
Proof.
  unfold typed_state; simpl. split_and!; try done.
  all: intros v Hv; by apply not_elem_of_empty in Hv.
Qed.

Lemma set_add_str (v : value) (s : gset value) :
  is_str v = true → (∀ x, x ∈ s → is_str x = true) →
  ∀ x, x ∈ set_add v s → is_str x = true.
Proof.
  intros Hv Hs x Hx. unfold set_add in Hx.
  apply elem_of_union in Hx as [Hx|Hx]; [|by apply Hs].
  apply elem_of_singleton in Hx. by subst.
Qed.

Lemma set_add_if_str (v : value) (s : gset value) :
  text_or_none v = true → (∀ x, x ∈ s → is_str x = true) →
  ∀ x, x ∈ set_add_if v s → is_str x = true.
Proof.
  intros Hv Hs. unfold set_add_if. destruct (truthy v) eqn:Ht; [|done].
  apply set_add_str; [|done]. by apply truthy_text_is_str.
Qed.

Lemma dd_append_typed (k : value) (x : ComponentRecord)
    (d : list (value * list ComponentRecord)) :
  is_str k = true → tally_ready x →
  Forall (λ item, is_str item.1 = true ∧ Forall tally_ready item.2) d →
  Forall (λ item, is_str item.1 = true ∧ Forall tally_ready item.2)
         (dd_append k x d).
Proof.
  intros Hk Hx. induction d as [|[k' l] d IH]; intros Hd; simpl.
  - apply Forall_singleton. simpl. split; [done|]. by apply Forall_singleton.
  - apply Forall_cons in Hd as [[Hk' Hl] Hd]. simpl in *.
    destruct (decide (k' = k)) as [->|Hne]; constructor; simpl; auto.
    split; [done|]. apply Forall_app. split; [done|]. by apply Forall_singleton.
Qed.

Lemma component_record_ready (row : Row) (rec : ComponentRecord) :
  well_typed row = true → component_record row = Ok rec → tally_ready rec.
Proof.
  unfold well_typed. intros Hwt Hrec.
  repeat (apply andb_prop in Hwt as [Hwt ?]).
  destruct (component_record_num row) as (rec' & Hrec' & _ & Hc & Ho & _ & Hord & Hrcv & _);
    [done..|].
  rewrite Hrec in Hrec'. injection Hrec' as <-.
  unfold tally_ready. rewrite Hc, Ho, Hord, Hrcv. done.
Qed.

Lemma process_row_typed (st : State) (row : Row) :
  well_typed row = true → typed_state st →
  ∃ st', process_row st row = Ok st' ∧ typed_state st'.
Proof.
  intros Hwt (Hcu & Hso & Hjo & Hcj & Hjc).
  pose proof Hwt as Hwt'. unfold well_typed in Hwt'.
  repeat (apply andb_prop in Hwt' as [Hwt' ?]).
  unfold process_row.
  destruct (truthy (MARK_INFO row) && truthy (CUSTOMER row)) eqn:Hh;
    [|destruct (truthy (JOB row)) eqn:Hj; [|destruct (truthy (COMPONENT row)) eqn:Hc]].
  - apply andb_prop in Hh as [_ Hcust].
    eexists; split; [reflexivity|]. unfold typed_state; simpl. split_and!; try done.
    + apply set_add_str; [|done]. by apply truthy_text_is_str.
    + by apply set_add_if_str.
  - eexists; split; [reflexivity|]. unfold typed_state; simpl. split_and!; try done.
    apply set_add_str; [|done]. by apply truthy_text_is_str.
  - destruct (truthy (current_job st)) eqn:Hcur.
    + destruct (component_branch_num st row) as (rec & st' & Hrec & Hst' & Hjc' & _);
        [done..|].
      exists st'. split; [done|].
      apply component_branch_ok in Hst' as Hshape. destruct Hshape as [jc Hshape].
      rewrite Hshape in Hjc'. simpl in Hjc'. subst jc.
      rewrite Hshape. unfold typed_state; simpl. split_and!; try done.
      apply dd_append_typed; [|by eapply component_record_ready|done].
      by apply truthy_text_is_str.
    + destruct (component_branch_no_job st row Hcur) as (st' & Hst' & Hjc' & _).
      exists st'. split; [done|].
      apply component_branch_ok in Hst' as Hshape. destruct Hshape as [jc Hshape].
      rewrite Hshape in Hjc'. simpl in Hjc'. subst jc.
      rewrite Hshape. unfold typed_state; simpl. split_and!; done.
  - eexists; split; [reflexivity|]. unfold typed_state; simpl. split_and!; done.
Qed.

Lemma row_loop_typed (rows : list Row) (st : State) :
  Forall (λ r, well_typed r = true) rows → typed_state st →
  ∃ st', row_loop st rows = Ok st' ∧ typed_state st'.
Proof.
  revert st. induction rows as [|r rows IH]; intros st Hrows Hst; simpl.
  - eauto.
  - apply Forall_cons in Hrows as [Hr Hrows].
    destruct (process_row_typed st r Hr Hst) as (st1 & -> & Hst1). simpl.
    by apply IH.
Qed.

Lemma sorted_check_str (xs : list value) :
  Forall (λ v, is_str v = true) xs → sorted_check xs = Ok tt.
Proof.
  intros H. unfold sorted_check.
  assert (forallb is_str xs = true) as ->.
  { induction H as [|v xs Hv _ IH]; simpl; [done|]. by rewrite Hv, IH. }
  by rewrite orb_true_r.
Qed.

Lemma sorted_check_set (s : gset value) :
  (∀ v, v ∈ s → is_str v = true) → sorted_check (elements s) = Ok tt.
Proof.
  intros H. apply sorted_check_str, Forall_forall. intros v Hv.
  by apply H, elem_of_elements.
Qed.

Lemma analyze_total (rows : list Row) :
  Forall (λ r, well_typed r = true) rows → ∃ rep, analyze rows = Ok rep.
Proof.
  intros Hrows.
  destruct (row_loop_typed rows init Hrows typed_init)
    as (st & Hst & Hcu & Hso & Hjo & _ & Hjc).
  assert (Forall tally_ready (all_comps (job_components st))) as Hall.
  { unfold all_comps. apply Forall_concat, Forall_fmap.
    eapply Forall_impl; [exact Hjc|]. by intros item [_ ?]. }
  destruct (for_each_total po_comp tally_ready) with (s := po_init)
    (l := all_comps (job_components st)) as [pt Hpt]; [|done|].
  { intros t c (_ & _ & Ho & Hr). by apply po_comp_total. }
  destruct (for_each_total stock_comp tally_ready) with (s := stock_init)
    (l := all_comps (job_components st)) as [stk Hstk]; [|done|].
  { intros t c (Hc & Ho & _ & _).
    destruct (qty_committed c) as [|qc|] eqn:Ec; try done.
    destruct (qty_onhand c) as [|qo|] eqn:Eo; try done.
    by eapply stock_comp_int. }
  unfold analyze, po_analysis, stock_analysis.
  rewrite Hst; simpl.
  rewrite !sorted_check_set by done; simpl.
  rewrite !for_each_comp_flat, Hpt; simpl. rewrite Hstk; simpl.
  rewrite sorted_check_str; simpl; [eauto|].
  apply Forall_fmap. eapply Forall_impl; [exact Hjc|]. by intros item [? _].
Qed.

(** ** The stock counter of the purchase-order loop *)

(** C9.  Whenever the script runs to its end, [total_components_stock] is 0,
    however many records without a purchase order there are: the with-PO
    total counts exactly the records with [has_po] true, and the records
    with [has_po] false are counted only by [stock_sufficient] and
    [stock_shortage] together.  The script does run to its end on every
    sheet whose identifier cells are text or empty and whose quantity cells
    are integers or empty. *)
Theorem total_components_stock_zero (rows : list Row) :
  (∀ rep, analyze rows = Ok rep →
     let comps := all_comps (job_components (final rep)) in
     total_components_stock (po_tally rep) = 0
     ∧ total_components_with_po (po_tally rep) = count_po true comps
     ∧ stock_sufficient (stock_tally rep) + stock_shortage (stock_tally rep)
       = count_po false comps)
  ∧ (Forall (λ r, well_typed r = true) rows → ∃ rep, analyze rows = Ok rep).
Proof.
  split; [|apply analyze_total].
  intros rep H. unfold analyze in H.
  apply bind_ok in H as (st & _ & H).
  apply bind_ok in H as (_ & _ & H).
  apply bind_ok in H as (_ & _ & H).
  apply bind_ok in H as (_ & _ & H).
  apply bind_ok in H as (pt & Hpt & H).
  apply bind_ok in H as (stk & Hstk & H).
  apply bind_ok in H as (_ & _ & H).
  injection H as <-. simpl.
  destruct (po_analysis_ok _ _ Hpt) as [H0 Hpo].
  split_and!; [done|done|]. by apply stock_analysis_ok.
Qed.

Lemma total_components_stock_zero_witness :
  Forall (λ r, well_typed r = true) sample_sheet
  ∧ ∃ rep, analyze sample_sheet = Ok rep
      ∧ total_components_stock (po_tally rep) = 0
      ∧ count_po false (all_comps (job_components (final rep))) = 1
      ∧ stock_shortage (stock_tally rep) = 1.
Proof.
  assert (Forall (λ r, well_typed r = true) sample_sheet) as Hwt
    by (repeat constructor).
  split; [exact Hwt|].
  destruct (proj2 (total_components_stock_zero sample_sheet) Hwt) as [rep Hrep].
  exists rep. split; [exact Hrep|].
  split; [apply (proj1 (total_components_stock_zero sample_sheet) rep Hrep)|].
  vm_compute in Hrep. injection Hrep as <-. split; reflexivity.
Defined.

(** * Further properties of the row loop *)

(** ** Row counters *)

Lemma process_row_count (st st' : State) (row : Row) :
  process_row st row = Ok st' →
  ∀ t, count_of t st' = count_of t st + (if decide (t = classify row) then 1 else 0).
Proof.
  rewrite process_row_classify. intros H t. destruct (classify row).
  - injection H as <-. destruct t; simpl; try case_decide; try done; lia.
  - injection H as <-. destruct t; simpl; try case_decide; try done; lia.
  - apply component_branch_ok in H as [jc ->].
    destruct t; simpl; try case_decide; try done; lia.
  - injection H as <-. destruct t; simpl; try case_decide; try done; lia.
Qed.

Lemma rows_of_cons (t : RowType) (r : Row) (rows : list Row) :
  rows_of t (r :: rows)
  = if decide (classify r = t) then r :: rows_of t rows else rows_of t rows.
Proof. unfold rows_of. rewrite filter_cons. by destruct (decide (classify r = t)). Qed.

(** X1.  When the row loop completes, each of the four row counters has
    grown by the number of rows that took its branch, so together they have
    grown by the number of rows read. *)
Theorem row_counters_count_rows (st st' : State) (rows : list Row) :
  row_loop st rows = Ok st' →
  (∀ t, count_of t st' = count_of t st + Z.of_nat (length (rows_of t rows)))
  ∧ customer_rows st' + job_rows st' + component_rows st' + other_rows st'
    = customer_rows st + job_rows st + component_rows st + other_rows st
      + Z.of_nat (length rows).
Proof.
  revert st. induction rows as [|r rows IH]; intros st H; simpl in H.
  - injection H as <-. split; [intros t|]; simpl; lia.
  - apply bind_ok in H as (st1 & H1 & H2).
    destruct (IH _ H2) as [IHt IHsum].
    pose proof (process_row_count _ _ _ H1) as Hc. split.
    + intros t. rewrite IHt, (Hc t), rows_of_cons.
      destruct (decide (t = classify r)) as [->|Hne].
      * rewrite decide_True by done. simpl length. lia.
      * rewrite decide_False by done. lia.
    + rewrite IHsum. simpl length.
      pose proof (Hc Header) as HH. pose proof (Hc Job) as HJ.
      pose proof (Hc Component) as HC. pose proof (Hc Other) as HO.
      simpl in HH, HJ, HC, HO.
      destruct (classify r); repeat case_decide; try done; lia.
Qed.

Lemma row_counters_count_rows_witness :
  ∃ st', row_loop init sample_sheet = Ok st'
    ∧ count_of Component st' = 2
    ∧ customer_rows st' + job_rows st' + component_rows st' + other_rows st' = 4.
Proof.
  destruct (row_loop init sample_sheet) as [st'|] eqn:H;
    [|vm_compute in H; discriminate H].
  exists st'. split; [reflexivity|].
  destruct (row_counters_count_rows init st' sample_sheet H) as [Ht Hsum].
  split; [apply (Ht Component) | exact Hsum].
Defined.

(** ** What the unique-value sets hold *)

Lemma process_row_sets_step (st st' : State) (row : Row) :
  process_row st row = Ok st' →
  customers st'
    = (if decide (classify row = Header)
       then set_add_if (CUSTOMER row) (customers st) else customers st)
  ∧ sales_orders st'
    = (if decide (classify row = Header)
       then set_add_if (SALES_ORDER row) (sales_orders st) else sales_orders st)
  ∧ jobs st'
    = (if decide (classify row = Job)
       then set_add_if (JOB row) (jobs st) else jobs st)
  ∧ components st'
    = (if decide (classify row = Component)
       then set_add_if (COMPONENT row) (components st) else components st)
  ∧ vendors st'
    = (if decide (classify row = Component)
       then set_add_if (VENDOR row) (vendors st) else vendors st)
  ∧ po_numbers st'
    = (if decide (classify row = Component)
       then set_add_if (PURCHASE_ORDER row) (po_numbers st) else po_numbers st).
Proof.
  unfold process_row, classify, set_add_if.
  destruct (truthy (MARK_INFO row)) eqn:Hm, (truthy (CUSTOMER row)) eqn:Hc;
    simpl;
    try (destruct (truthy (JOB row)) eqn:Hj;
         [|destruct (truthy (COMPONENT row)) eqn:Hco]);
    intros H;
    try (apply component_branch_ok in H as [jc H]; unfold set_add_if in H);
    try injection H as <-; subst; simpl; rewrite ?Hc, ?Hj, ?Hco; done.
Qed.

Lemma column_values_cons (col : Row → value) (r : Row) (rows : list Row) :
  column_values col (r :: rows) = set_add_if (col r) (column_values col rows).
Proof.
  unfold column_values, set_add_if, set_add. rewrite fmap_cons, filter_cons.
  destruct (decide (truthy (col r) = true)) as [Ht|Ht].
  - by rewrite Ht, list_to_set_cons.
  - by apply not_true_is_false in Ht as ->.
Qed.

Lemma set_add_if_union (v : value) (a b : gset value) :
  a ∪ set_add_if v b = set_add_if v a ∪ b.
Proof.
  unfold set_add_if, set_add. destruct (truthy v); [|done].
  by rewrite (assoc_L (∪)), (comm_L (∪) a).
Qed.

(** A set that each row of class [t] extends by its [col] cell, when set,
    and that other rows leave alone, collects that column over the loop. *)
Lemma row_loop_column (proj : State → gset value) (col : Row → value) (t : RowType) :
  (∀ st st' row, process_row st row = Ok st' →
     proj st' = if decide (classify row = t)
                then set_add_if (col row) (proj st) else proj st) →
  ∀ rows st st', row_loop st rows = Ok st' →
    proj st' = column_values col (rows_of t rows) ∪ proj st.
Proof.
  intros Hstep. induction rows as [|r rows IH]; intros st st' H; simpl in H.
  - injection H as <-. unfold rows_of, column_values. simpl.
    by rewrite (left_id_L ∅ (∪)).
  - apply bind_ok in H as (st1 & H1 & H2).
    rewrite (IH _ _ H2), (Hstep _ _ _ H1), rows_of_cons.
    destruct (decide (classify r = t)); [|done].
    by rewrite column_values_cons, set_add_if_union.
Qed.

(** X2.  When the row loop completes, each unique-value set holds what it
    held before plus exactly the non-empty cells of its column on the rows
    of its branch: customers and sales orders of Header rows, jobs of Job
    rows, components, vendors and purchase orders of Component rows. *)
Theorem unique_sets_collect_columns (st st' : State) (rows : list Row) :
  row_loop st rows = Ok st' →
  customers st' = column_values CUSTOMER (rows_of Header rows) ∪ customers st
  ∧ sales_orders st' = column_values SALES_ORDER (rows_of Header rows) ∪ sales_orders st
  ∧ jobs st' = column_values JOB (rows_of Job rows) ∪ jobs st
  ∧ components st' = column_values COMPONENT (rows_of Component rows) ∪ components st
  ∧ vendors st' = column_values VENDOR (rows_of Component rows) ∪ vendors st
  ∧ po_numbers st'
    = column_values PURCHASE_ORDER (rows_of Component rows) ∪ po_numbers st.
Proof.
  intros H. split_and!.
  - apply (row_loop_column customers CUSTOMER Header); [|done].
    intros s s' r Hr. apply (process_row_sets_step s s' r Hr).
  - apply (row_loop_column sales_orders SALES_ORDER Header); [|done].
    intros s s' r Hr. apply (process_row_sets_step s s' r Hr).
  - apply (row_loop_column jobs JOB Job); [|done].
    intros s s' r Hr. apply (process_row_sets_step s s' r Hr).
  - apply (row_loop_column components COMPONENT Component); [|done].
    intros s s' r Hr. apply (process_row_sets_step s s' r Hr).
  - apply (row_loop_column vendors VENDOR Component); [|done].
    intros s s' r Hr. apply (process_row_sets_step s s' r Hr).
  - apply (row_loop_column po_numbers PURCHASE_ORDER Component); [|done].
    intros s s' r Hr. apply (process_row_sets_step s s' r Hr).
Qed.

Lemma unique_sets_collect_columns_witness :
  ∃ st', row_loop init sample_sheet = Ok st'
    ∧ components st' = column_values COMPONENT (rows_of Component sample_sheet) ∪ ∅.
Proof.
  destruct (row_loop init sample_sheet) as [st'|] eqn:H;
    [|vm_compute in H; discriminate H].
  exists st'. split; [reflexivity|].
  apply (unique_sets_collect_columns init st' sample_sheet H).
Defined.

Lemma elem_of_set_add_if_inv (x v : value) (s : gset value) :
  x ∈ set_add_if v s → (x = v ∧ truthy v = true) ∨ x ∈ s.
Proof.
  unfold set_add_if, set_add. destruct (truthy v) eqn:Hv; [|by right].
  intros H. apply elem_of_union in H as [H|H]; [|by right].
  apply elem_of_singleton in H. by left.
Qed.

Lemma process_row_sets_truthy (st st' : State) (row : Row) :
  sets_truthy st → process_row st row = Ok st' → sets_truthy st'.
Proof.
  intros Hst H x Hx.
  destruct (process_row_sets_step _ _ _ H) as (Hcu & Hso & Hjo & Hco & Hve & Hpo).
  assert (∀ y, y ∈ customers st ∨ y ∈ jobs st ∨ y ∈ sales_orders st
               ∨ y ∈ components st ∨ y ∈ vendors st ∨ y ∈ po_numbers st
               → truthy y = true) as Hst'.
  { intros y Hy. apply Hst. rewrite !elem_of_union. tauto. }
  rewrite !elem_of_union, Hcu, Hso, Hjo, Hco, Hve, Hpo in Hx.
  destruct (decide (classify row = Header)), (decide (classify row = Job)),
    (decide (classify row = Component));
    repeat match goal with
    | Hx : _ ∨ _ |- _ => destruct Hx as [Hx|Hx]
    | Hx : _ ∈ set_add_if _ _ |- _ =>
        apply elem_of_set_add_if_inv in Hx as [[-> Hx]|Hx]
    end; try done; apply Hst'; tauto.
Qed.

(** X3.  The unique-value sets never hold [None], [0] or the empty string:
    if they do not before the row loop, they do not after it. *)
Theorem unique_sets_hold_no_blank (st st' : State) (rows : list Row) :
  sets_truthy st → row_loop st rows = Ok st' → sets_truthy st'.
Proof.
  revert st. induction rows as [|r rows IH]; intros st Hst H; simpl in H.
  - by injection H as <-.
  - apply bind_ok in H as (st1 & H1 & H2).
    eapply IH; [|exact H2]. by eapply process_row_sets_truthy.
Qed.

Lemma unique_sets_hold_no_blank_witness :
  sets_truthy init
  ∧ ∃ st', row_loop init sample_sheet = Ok st' ∧ sets_truthy st'.
Proof.
  assert (sets_truthy init) as Hinit.
  { intros v Hv. simpl in Hv. rewrite !elem_of_union in Hv.
    exfalso. repeat destruct Hv as [Hv|Hv]; by apply not_elem_of_empty in Hv. }
  split; [exact Hinit|].
  destruct (row_loop init sample_sheet) as [st'|] eqn:H;
    [|vm_compute in H; discriminate H].
  exists st'. split; [reflexivity|].
  apply (unique_sets_hold_no_blank init st' sample_sheet Hinit H).
Defined.

(** ** The three cursors *)

Lemma process_row_cursor (st st' : State) (row : Row) :
  process_row st row = Ok st' →
  current_customer st'
    = (if decide (classify row = Header) then CUSTOMER row else current_customer st)
  ∧ current_mark st'
    = (if decide (classify row = Header) then MARK_INFO row else current_mark st)
  ∧ current_job st'
    = (if decide (classify row = Job) then JOB row else current_job st).
Proof.
  rewrite process_row_classify. intros H. destruct (classify row).
  - by injection H as <-.
  - by injection H as <-.
  - by apply component_branch_ok in H as [jc ->].
  - by injection H as <-.
Qed.

(** X4.  When the row loop completes, [current_customer] and [current_mark]
    are the customer and mark of the last Header row read and [current_job]
    is the job of the last Job row read, each being what it was before the
    loop if there was no such row. *)
Theorem cursors_are_last_seen (st st' : State) (rows : list Row) :
  row_loop st rows = Ok st' →
  current_customer st' = last_cell Header CUSTOMER (current_customer st) rows
  ∧ current_mark st' = last_cell Header MARK_INFO (current_mark st) rows
  ∧ current_job st' = last_cell Job JOB (current_job st) rows.
Proof.
  revert st. induction rows as [|r rows IH]; intros st H; simpl in H.
  - by injection H as <-.
  - apply bind_ok in H as (st1 & H1 & H2).
    destruct (process_row_cursor _ _ _ H1) as (Hc & Hm & Hj).
    destruct (IH _ H2) as (-> & -> & ->). unfold last_cell. simpl.
    by rewrite Hc, Hm, Hj.
Qed.

Lemma cursors_are_last_seen_witness :
  ∃ st', row_loop init sample_sheet = Ok st'
    ∧ current_customer st' = VStr "ACME"
    ∧ current_mark st' = VStr "M1"
    ∧ current_job st' = VStr "J100".
Proof.
  destruct (row_loop init sample_sheet) as [st'|] eqn:H;
    [|vm_compute in H; discriminate H].
  exists st'. split; [reflexivity|].
  apply (cursors_are_last_seen init st' sample_sheet H).
Defined.

(** ** The per-job lists *)

Lemma dd_append_keys (k : value) (x : ComponentRecord)
    (d : list (value * list ComponentRecord)) :
  (dd_append k x d).*1 = if decide (k ∈ d.*1) then d.*1 else d.*1 ++ [k].
Proof.
  induction d as [|[k' l] d IH].
  - simpl. destruct (decide (k ∈ [])) as [H|_]; [by apply not_elem_of_nil in H|done].
  - cbn [dd_append]. destruct (decide (k' = k)) as [->|Hne].
    + rewrite decide_True; [done|]. rewrite fmap_cons. apply elem_of_cons. by left.
    + rewrite !fmap_cons, IH. cbn [fst].
      destruct (decide (k ∈ d.*1)) as [Hin|Hin].
      * rewrite decide_True; [done|]. apply elem_of_cons. by right.
      * rewrite decide_False; [done|]. rewrite elem_of_cons. intros [?|?]; by subst.
Qed.

Lemma dd_append_nonempty (k : value) (x : ComponentRecord)
    (d : list (value * list ComponentRecord)) :
  Forall (λ item, item.2 ≠ []) d → Forall (λ item, item.2 ≠ []) (dd_append k x d).
Proof.
  induction d as [|[k' l] d IH]; intros Hd; simpl.
  - by apply Forall_singleton.
  - apply Forall_cons in Hd as [Hl Hd].
    destruct (decide (k' = k)); apply Forall_cons; split; simpl; auto.
    by destruct l.
Qed.

Lemma dd_append_length (k : value) (x : ComponentRecord)
    (d : list (value * list ComponentRecord)) :
  length (all_comps (dd_append k x d)) = S (length (all_comps d)).
Proof.
  unfold all_comps. induction d as [|[k' l] d IH]; [done|].
  cbn [dd_append]. destruct (decide (k' = k));
    rewrite !fmap_cons; cbn [snd concat]; rewrite !length_app.
  - simpl. lia.
  - rewrite IH. lia.
Qed.

Lemma component_branch_shape (st st' : State) (row : Row) :
  component_branch st row = Ok st' →
  jobs st' = jobs st ∧ current_job st' = current_job st
  ∧ ((truthy (current_job st) = false ∧ job_components st' = job_components st)
     ∨ ∃ rec, truthy (current_job st) = true
         ∧ component_record row = Ok rec
         ∧ job_components st'
           = dd_append (current_job st) rec (job_components st)).
Proof.
  unfold component_branch. intros H. apply bind_ok in H as (jc & Hjc & H).
  simpl in H. injection H as <-. simpl. split_and!; try done.
  destruct (truthy (current_job st)).
  - right. apply bind_ok in Hjc as (rec & Hrec & Hjc). simpl in Hjc.
    injection Hjc as <-. eauto.
  - left. by injection Hjc as <-.
Qed.

Lemma classify_job_truthy (row : Row) : classify row = Job → truthy (JOB row) = true.
Proof.
  unfold classify. destruct (truthy (MARK_INFO row) && truthy (CUSTOMER row)); [done|].
  by destruct (truthy (JOB row)); [|destruct (truthy (COMPONENT row))].
Qed.

Lemma process_row_grouped (st st' : State) (row : Row) :
  grouped_state st → process_row st row = Ok st' → grouped_state st'.
Proof.
  intros (Hnd & Hkeys & Hne & Hcur). rewrite process_row_classify.
  destruct (classify row) eqn:Hcl; intros H.
  - injection H as <-. by split_and!.
  - injection H as <-. unfold grouped_state; simpl. split_and!; try done.
    + intros k Hk. destruct (Hkeys k Hk) as [Hj Ht]. split; [|done].
      unfold set_add. apply elem_of_union. by right.
    + intros _. apply elem_of_set_add.
  - destruct (component_branch_shape _ _ _ H) as (Hj & Hc & [[Hf Hjc]|(rec & Ht & _ & Hjc)]);
      unfold grouped_state; rewrite Hj, Hc, Hjc; [by split_and!|].
    rewrite dd_append_keys. split_and!; try done.
    + destruct (decide (current_job st ∈ (job_components st).*1)) as [Hin|Hin];
        [done|].
      apply NoDup_app. split_and!; [done| |apply NoDup_singleton].
      intros x Hx Hx'. apply list_elem_of_singleton in Hx'. by subst.
    + intros k Hk.
      destruct (decide (current_job st ∈ (job_components st).*1)) as [Hin|Hin];
        [by apply Hkeys|].
      apply elem_of_app in Hk as [Hk|Hk]; [by apply Hkeys|].
      apply list_elem_of_singleton in Hk as ->. split; [by apply Hcur|done].
    + by apply dd_append_nonempty.
  - injection H as <-. by split_and!.
Qed.

(** X5.  The row loop keeps the per-job lists well formed: no job appears
    twice as a key, every key is a non-empty value that is also in [jobs],
    no key has an empty list, and a current job is always in [jobs].  This
    holds of the initial state, hence after every completed run. *)
Theorem per_job_lists_well_formed :
  grouped_state init
  ∧ ∀ (rows : list Row) (st st' : State),
      grouped_state st → row_loop st rows = Ok st' → grouped_state st'.
Proof.
  split.
  - unfold grouped_state; simpl. split_and!; try done.
    + apply NoDup_nil_2.
    + intros k Hk. by apply not_elem_of_nil in Hk.
  - induction rows as [|r rows IH]; intros st st' Hst H; simpl in H.
    + by injection H as <-.
    + apply bind_ok in H as (st1 & H1 & H2).
      eapply IH; [|exact H2]. by eapply process_row_grouped.
Qed.

Lemma per_job_lists_well_formed_witness :
  grouped_state init
  ∧ ∃ st', row_loop init sample_sheet = Ok st' ∧ grouped_state st'.
Proof.
  split; [apply per_job_lists_well_formed|].
  destruct (row_loop init sample_sheet) as [st'|] eqn:H;
    [|vm_compute in H; discriminate H].
  exists st'. split; [reflexivity|].
  apply (proj2 per_job_lists_well_formed sample_sheet init st'
           (proj1 per_job_lists_well_formed) H).
Defined.

Lemma process_row_job_current (st st' : State) (row : Row) :
  process_row st row = Ok st' → truthy (current_job st) = true →
  truthy (current_job st') = true
  ∧ length (all_comps (job_components st'))
    = (length (all_comps (job_components st))
       + if decide (classify row = Component) then 1 else 0)%nat.
Proof.
  rewrite process_row_classify. intros H Hcur.
  destruct (classify row) eqn:Hcl.
  - injection H as <-. simpl. split; [done|]. by rewrite Nat.add_0_r.
  - injection H as <-. simpl. split; [by apply classify_job_truthy|].
    by rewrite Nat.add_0_r.
  - destruct (component_branch_shape _ _ _ H) as (_ & Hc & [[Hf _]|(rec & _ & _ & Hjc)]);
      [congruence|].
    rewrite Hc, Hjc, dd_append_length. split; [done|]. simpl. lia.
  - injection H as <-. simpl. split; [done|]. by rewrite Nat.add_0_r.
Qed.

Lemma row_loop_job_current (rows : list Row) (st st' : State) :
  row_loop st rows = Ok st' → truthy (current_job st) = true →
  truthy (current_job st') = true
  ∧ length (all_comps (job_components st'))
    = (length (all_comps (job_components st)) + length (rows_of Component rows))%nat.
Proof.
  revert st. induction rows as [|r rows IH]; intros st H Hcur; simpl in H.
  - injection H as <-. split; [done|]. simpl. lia.
  - apply bind_ok in H as (st1 & H1 & H2).
    destruct (process_row_job_current _ _ _ H1 Hcur) as [Hcur1 Hlen1].
    destruct (IH _ H2 Hcur1) as [Hcur' Hlen']. split; [done|].
    rewrite Hlen', Hlen1, rows_of_cons.
    destruct (decide (classify r = Component)); simpl; lia.
Qed.

Lemma row_loop_no_job_row (rows : list Row) (st st' : State) :
  Forall (λ r, classify r ≠ Job) rows → row_loop st rows = Ok st' →
  current_job st' = current_job st.
Proof.
  revert st. induction rows as [|r rows IH]; intros st Hrows H; simpl in H.
  - by injection H as <-.
  - apply Forall_cons in Hrows as [Hr Hrows].
    apply bind_ok in H as (st1 & H1 & H2).
    rewrite (IH _ Hrows H2).
    destruct (process_row_cursor _ _ _ H1) as (_ & _ & ->).
    by rewrite decide_False.
Qed.

(** X6.  In a completed run from the initial state, the per-job lists hold
    one record for each Component row that comes after the first Job row,
    and none for the Component rows before it. *)
Theorem stored_records_count (pre post : list Row) (job : Row) (st : State) :
  Forall (λ r, classify r ≠ Job) pre →
  classify job = Job →
  row_loop init (pre ++ job :: post) = Ok st →
  length (all_comps (job_components st)) = length (rows_of Component post).
Proof.
  intros Hpre Hjob H. rewrite row_loop_app in H.
  apply bind_ok in H as (st1 & H1 & H). simpl in H.
  apply bind_ok in H as (st2 & H2 & H3).
  destruct (row_loop_skips_job init pre) as (st1' & H1' & _ & Hjc).
  { eapply Forall_impl; [exact Hpre|]. intros r Hr. unfold skips_job. simpl in *.
    destruct (classify r); [by left|congruence|right; right; by split|by right; left]. }
  rewrite H1 in H1'. injection H1' as <-.
  rewrite process_row_classify, Hjob in H2. injection H2 as <-.
  destruct (row_loop_job_current post _ _ H3) as [_ Hlen].
  { simpl. by apply classify_job_truthy. }
  rewrite Hlen. simpl. by rewrite Hjc.
Qed.

Lemma stored_records_count_witness :
  let pre := [header_row (VStr "M1") (VStr "ACME") VNone VNone VNone;
              component_row (VStr "C0") (VInt 1) VNone VNone VNone VNone VNone VNone] in
  let job := job_row (VStr "J100") in
  let post := [component_row (VStr "C1") (VInt 5) VNone (VInt 2) VNone VNone VNone VNone] in
  Forall (λ r, classify r ≠ Job) pre
  ∧ classify job = Job
  ∧ ∃ st, row_loop init (pre ++ job :: post) = Ok st
      ∧ length (all_comps (job_components st)) = 1%nat.
Proof.
  intros pre job post.
  assert (Forall (λ r, classify r ≠ Job) pre) as Hpre
    by (repeat constructor; intros H; vm_compute in H; discriminate H).
  split; [exact Hpre|]. split; [reflexivity|].
  destruct (row_loop init (pre ++ job :: post)) as [st|] eqn:H;
    [|vm_compute in H; discriminate H].
  exists st. split; [reflexivity|].
  apply (stored_records_count pre post job st Hpre eq_refl H).
Defined.

(** X7.  A Component row is filed under the job of the most recent Job row:
    in a completed run, whatever rows other than Job rows lie between that
    Job row and the Component row, the row's record is the last one in that
    job's list right after the row is processed. *)
Theorem component_filed_under_latest_job
    (st st' : State) (pre mid : list Row) (job comp : Row) :
  classify job = Job →
  Forall (λ r, classify r ≠ Job) mid →
  classify comp = Component →
  row_loop st (pre ++ job :: mid ++ [comp]) = Ok st' →
  ∃ rec, component_record comp = Ok rec
    ∧ last (dd_get (JOB job) (job_components st')) = Some rec
    ∧ current_job st' = JOB job.
Proof.
  intros Hjob Hmid Hcomp H. rewrite row_loop_app in H.
  apply bind_ok in H as (st1 & _ & H). simpl in H.
  apply bind_ok in H as (st2 & H2 & H). rewrite row_loop_app in H.
  apply bind_ok in H as (st3 & H3 & H). simpl in H.
  apply bind_ok in H as (st4 & H4 & H). injection H as <-.
  destruct (process_row_cursor _ _ _ H2) as (_ & _ & Hj2).
  rewrite decide_True in Hj2 by done.
  pose proof (row_loop_no_job_row _ _ _ Hmid H3) as Hj3. rewrite Hj2 in Hj3.
  rewrite process_row_classify, Hcomp in H4.
  destruct (component_branch_shape _ _ _ H4) as (_ & Hc & [[Hf _]|(rec & _ & Hrec & Hjc)]).
  { rewrite Hj3, (classify_job_truthy _ Hjob) in Hf. discriminate Hf. }
  exists rec. split; [done|]. rewrite Hc, Hjc, Hj3. split; [|done].
  rewrite dd_get_append. apply last_snoc.
Qed.

Lemma component_filed_under_latest_job_witness :
  let pre := [job_row (VStr "J1")] in
  let job := job_row (VStr "J2") in
  let mid := [header_row (VStr "M2") (VStr "BOLT") VNone VNone VNone; blank_row] in
  let comp := component_row (VStr "C1") (VInt 5) VNone (VInt 2) VNone VNone VNone VNone in
  classify job = Job
  ∧ Forall (λ r, classify r ≠ Job) mid
  ∧ classify comp = Component
  ∧ ∃ st' rec, row_loop init (pre ++ job :: mid ++ [comp]) = Ok st'
      ∧ component_record comp = Ok rec
      ∧ last (dd_get (VStr "J2") (job_components st')) = Some rec
      ∧ current_job st' = VStr "J2".
Proof.
  intros pre job mid comp.
  assert (Forall (λ r, classify r ≠ Job) mid) as Hmid
    by (repeat constructor; intros H; vm_compute in H; discriminate H).
  split; [reflexivity|]. split; [exact Hmid|]. split; [reflexivity|].
  destruct (row_loop init (pre ++ job :: mid ++ [comp])) as [st'|] eqn:H;
    [|vm_compute in H; discriminate H].
  destruct (component_filed_under_latest_job init st' pre mid job comp
              eq_refl Hmid eq_refl H) as (rec & Hrec & Hlast & Hcur).
  exists st', rec. by split_and!.
Defined.

(** ** Shortage and stock availability *)

Lemma or0_kind (v : value) : (∃ z, or0 v = VInt z) ∨ (∃ s, or0 v = VStr s).
Proof.
  unfold or0. destruct v as [|z|s]; simpl; [eauto| |].
  - destruct (z =? 0); simpl; eauto.
  - destruct (String.eqb s ""); simpl; eauto.
Qed.

(** X8.  For a row whose committed and on-hand cells are integers or empty,
    the component record can be built, its shortage is a non-negative
    integer, and the stock loop buckets the record without raising: a record
    without a purchase order counts as a stock shortage exactly when its
    shortage is positive and as sufficient exactly when it is 0; a record
    with a purchase order is not counted by the stock loop at all. *)
Theorem shortage_matches_stock_bucket (row : Row) (t : StockTally) :
  num_or_none (QTY_COMMITTED row) = true →
  num_or_none (QTY_ONHAND row) = true →
  ∃ rec z t', component_record row = Ok rec
    ∧ shortage rec = VInt z ∧ 0 ≤ z
    ∧ stock_comp t rec = Ok t'
    ∧ stock_sufficient t'
      = stock_sufficient t + (if negb (has_po rec) && (z =? 0) then 1 else 0)
    ∧ stock_shortage t'
      = stock_shortage t + (if negb (has_po rec) && (0 <? z) then 1 else 0).
Proof.
  intros Hc Ho.
  destruct (component_record_num row Hc Ho)
    as (rec & Hrec & _ & Hqc & Hqo & _ & _ & _ & _ & Hs).
  set (c := qty_of (QTY_COMMITTED row)) in *.
  set (o := qty_of (QTY_ONHAND row)) in *.
  exists rec, (Z.max (c - o) 0).
  unfold stock_comp. rewrite Hqc, Hqo. simpl.
  destruct (has_po rec); simpl.
  - exists t. split_and!; try done; lia.
  - destruct (Z.geb_spec o c); eexists; split_and!; try done; try lia; simpl.
    + rewrite Z.max_r by lia. simpl. lia.
    + rewrite Z.max_r by lia. simpl. lia.
    + destruct (Z.eqb_spec (Z.max (c - o) 0) 0); lia.
    + destruct (Z.ltb_spec 0 (Z.max (c - o) 0)); lia.
Qed.

Lemma shortage_matches_stock_bucket_witness :
  let row := component_row (VStr "C1") (VInt 5) VNone VNone VNone VNone VNone VNone in
  num_or_none (QTY_COMMITTED row) = true
  ∧ num_or_none (QTY_ONHAND row) = true
  ∧ ∃ rec z t', component_record row = Ok rec
      ∧ shortage rec = VInt z ∧ 0 ≤ z
      ∧ stock_comp stock_init rec = Ok t'
      ∧ stock_sufficient t'
        = stock_sufficient stock_init + (if negb (has_po rec) && (z =? 0) then 1 else 0)
      ∧ stock_shortage t'
        = stock_shortage stock_init + (if negb (has_po rec) && (0 <? z) then 1 else 0).
Proof.
  intros row. split; [reflexivity|]. split; [reflexivity|].
  apply (shortage_matches_stock_bucket row stock_init); reflexivity.
Defined.

(** ** The purchase-order counters *)

Lemma po_comp_partition (t t' : POTally) (comp : ComponentRecord) :
  po_comp t comp = Ok t' →
  total_components_with_po t'
    - (po_received_complete t' + po_partially_received t' + po_not_received t')
  = total_components_with_po t
    - (po_received_complete t + po_partially_received t + po_not_received t) + 0.
Proof.
  unfold po_comp. destruct (has_po comp); intros H.
  - apply bind_ok in H as (b & _ & H). injection H as <-. destruct b; simpl; lia.
  - injection H as <-. simpl. lia.
Qed.

(** X9.  When the purchase-order loop completes, the three fulfilment
    counters add up to the number of components with a purchase order: every
    such component is in exactly one bucket. *)
Theorem po_buckets_partition (d : list (value * list ComponentRecord)) (t : POTally) :
  po_analysis d = Ok t →
  po_received_complete t + po_partially_received t + po_not_received t
  = total_components_with_po t
  ∧ total_components_with_po t = count_po true (all_comps d).
Proof.
  intros H. split; [|by apply po_analysis_ok].
  unfold po_analysis in H. rewrite for_each_comp_flat in H.
  pose proof (for_each_measure po_comp
    (λ t, total_components_with_po t
          - (po_received_complete t + po_partially_received t + po_not_received t))
    (λ _, 0) (λ s a s' Hs, po_comp_partition s s' a Hs) _ _ _ H) as Hm.
  simpl in Hm. rewrite (foldr_zero (all_comps d)) in Hm. lia.
Qed.

Lemma po_buckets_partition_witness :
  let d := [(VStr "J100",
             [mkComp (VStr "C2") VNone (VInt 0) (VInt 0) (VInt 0) true
                     (VStr "PO77") (VStr "V1") (VInt 20) (VInt 20) VNone (VInt 0);
              mkComp (VStr "C3") VNone (VInt 0) (VInt 0) (VInt 0) true
                     (VStr "PO78") VNone (VInt 20) (VInt 5) VNone (VInt 0)])] in
  ∃ t, po_analysis d = Ok t
    ∧ po_received_complete t + po_partially_received t + po_not_received t
      = total_components_with_po t
    ∧ total_components_with_po t = 2.
Proof.
  intros d. destruct (po_analysis d) as [t|] eqn:H;
    [|vm_compute in H; discriminate H].
  exists t. split; [reflexivity|].
  apply (po_buckets_partition d t H).
Defined.

(** ** Exceptions *)

Lemma shortage_expr_raises (a b : value) :
  shortage_expr (or0 a) (or0 b) = TypeError ↔ shortage_raises (or0 a) (or0 b).
Proof.
  unfold shortage_expr, shortage_raises.
  destruct (or0_kind a) as [[x ->]|[s ->]], (or0_kind b) as [[y ->]|[u ->]]; simpl;
    try done.
  - destruct (x >? y); simpl; split; try done.
  - destruct (String.compare s u); simpl; split; done.
Qed.

(** Processing a row raises exactly when the row is a Component row, a job
    is current, and the shortage cannot be evaluated. *)
Lemma process_row_raises (st : State) (row : Row) :
  process_row st row = TypeError ↔
    classify row = Component ∧ truthy (current_job st) = true
    ∧ shortage_raises (or0 (QTY_COMMITTED row)) (or0 (QTY_ONHAND row)).
Proof.
  rewrite process_row_classify.
  destruct (classify row) eqn:Hcl; try (split; [done|by intros [? _]]).
  unfold component_branch. destruct (truthy (current_job st)) eqn:Hcur.
  - unfold component_record. rewrite <- shortage_expr_raises.
    destruct (shortage_expr (or0 (QTY_COMMITTED row)) (or0 (QTY_ONHAND row)));
      simpl; split; try done. by intros (_ & _ & ?).
  - simpl. split; [done|]. by intros (_ & ? & _).
Qed.

Lemma po_bucket_raises (a b : value) :
  po_bucket (or0 a) (or0 b) = TypeError ↔
    is_str (or0 a) = true ∨ is_str (or0 b) = true.
Proof.
  unfold po_bucket.
  destruct (or0_kind a) as [[x ->]|[s ->]], (or0_kind b) as [[y ->]|[u ->]]; simpl.
  - destruct (y >=? x), (x >? 0), (y >? 0); simpl; split; try done;
      intros [?|?]; done.
  - split; [by right|done].
  - split; [by left|done].
  - destruct (String.compare u s); simpl; split; try done; by left.
Qed.

(** The purchase-order step raises on a record exactly when the record has
    a purchase order and its ordered or received quantity is still text
    after [or 0]. *)
Lemma po_comp_raises (t : POTally) (comp : ComponentRecord) :
  po_comp t comp = TypeError ↔
    has_po comp = true
    ∧ (is_str (or0 (qty_ordered comp)) = true
       ∨ is_str (or0 (qty_received comp)) = true).
Proof.
  unfold po_comp. destruct (has_po comp).
  - rewrite <- po_bucket_raises.
    destruct (po_bucket (or0 (qty_ordered comp)) (or0 (qty_received comp))) as [b|];
      simpl; split; try done; by intros [_ ?].
  - split; [done|by intros [? _]].
Qed.

(** ** Code sorts *)

Lemma counter_incr_lookup (k k' : value) (c : gmap value Z) :
  default 0 (counter_incr k c !! k')
  = default 0 (c !! k') + (if decide (k = k') then 1 else 0).
Proof.
  unfold counter_incr. destruct (decide (k = k')) as [->|Hne].
  - by rewrite lookup_insert_eq.
  - rewrite lookup_insert_ne by done. lia.
Qed.

Lemma process_row_code_sorts (st st' : State) (row : Row) :
  process_row st row = Ok st' →
  code_sorts st'
  = if decide (classify row = Header ∧ truthy (CODE_SORT row) = true)
    then counter_incr (CODE_SORT row) (code_sorts st) else code_sorts st.
Proof.
  rewrite process_row_classify. intros H. destruct (classify row).
  - injection H as <-. simpl. destruct (truthy (CODE_SORT row)).
    + by rewrite decide_True.
    + rewrite decide_False; [done|]. by intros [_ ?].
  - injection H as <-. rewrite decide_False; [done|]. by intros [? _].
  - apply component_branch_ok in H as [jc ->].
    rewrite decide_False; [done|]. by intros [? _].
  - injection H as <-. rewrite decide_False; [done|]. by intros [? _].
Qed.

(** X13.  When the row loop completes, the count kept for a code sort has
    grown by the number of Header rows carrying that code sort; empty
    code-sort cells are not counted, and rows of other kinds never count. *)
Theorem code_sorts_count_headers (st st' : State) (rows : list Row) :
  row_loop st rows = Ok st' →
  ∀ code, default 0 (code_sorts st' !! code)
          = default 0 (code_sorts st !! code) + code_sort_hits code rows.
Proof.
  unfold code_sort_hits.
  revert st. induction rows as [|r rows IH]; intros st H code; simpl in H.
  - injection H as <-. simpl. lia.
  - apply bind_ok in H as (st1 & H1 & H2).
    rewrite (IH _ H2 code), (process_row_code_sorts _ _ _ H1), rows_of_cons.
    destruct (decide (classify r = Header)) as [Hh|Hh].
    + rewrite filter_cons. destruct (truthy (CODE_SORT r)) eqn:Ht.
      * rewrite decide_True by done. rewrite counter_incr_lookup.
        destruct (decide (CODE_SORT r = code)) as [<-|Hne].
        -- rewrite decide_True by done. simpl length. lia.
        -- rewrite decide_False by (by intros [? _]). lia.
      * rewrite decide_False by (by intros [_ ?]).
        rewrite decide_False; [lia|]. intros [<- ?]. congruence.
    + rewrite decide_False by (by intros [? _]). lia.
Qed.

Lemma code_sorts_count_headers_witness :
  let rows := [header_row (VStr "M1") (VStr "ACME") VNone (VStr "A") VNone;
               header_row (VStr "M2") (VStr "BOLT") VNone (VStr "A") VNone;
               header_row (VStr "M3") (VStr "CARL") VNone VNone VNone] in
  ∃ st', row_loop init rows = Ok st'
    ∧ default 0 (code_sorts st' !! VStr "A") = 2.
Proof.
  intros rows. destruct (row_loop init rows) as [st'|] eqn:H;
    [|vm_compute in H; discriminate H].
  exists st'. split; [reflexivity|].
  apply (code_sorts_count_headers init st' rows H (VStr "A")).
Defined.

(** ** Example job breakdowns *)

Global Instance value_le_total : Total value_le.
Proof.
  intros a b. destruct a as [|x|s], b as [|y|t]; simpl; auto.
  - lia.
  - apply String.leb_total.
Qed.

Lemma breakdown_fold (d : list (value * list ComponentRecord))
    (keys : list value) (acc : list (value * list ComponentRecord)) :
  (length acc ≤ 3)%nat →
  let shown := take 3 (acc ++ filter (λ item, has_any_po item.2 = true)
                                     ((λ k, (k, dd_get k d)) <$> keys)) in
  foldl (breakdown_step d) (length acc, acc) keys = (length shown, shown).
Proof.
  revert acc. induction keys as [|k keys IH]; intros acc Hacc; simpl.
  - by rewrite app_nil_r, take_ge.
  - unfold breakdown_step at 2. simpl. rewrite filter_cons. simpl.
    destruct (has_any_po (dd_get k d)) eqn:Hp; simpl.
    + case_bool_decide as Hlt.
      * replace (S (length acc)) with (length (acc ++ [(k, dd_get k d)]))
          by (rewrite length_app; simpl; lia).
        rewrite IH by (rewrite length_app; simpl; lia).
        by rewrite <- app_assoc.
      * rewrite IH by done. rewrite !take_app_le by lia. done.
    + by rewrite IH.
Qed.

(** X15.  The closing section prints the jobs in sorted order and shows at
    most three of them: exactly the first three, in that order, whose
    component list has at least one purchase order, each with its whole
    component list. *)
Theorem example_breakdowns_first_three
    (d : list (value * list ComponentRecord)) (n : nat)
    (shown : list (value * list ComponentRecord)) :
  example_breakdowns d = Ok (n, shown) →
  ∃ keys, py_sorted d.*1 = Ok keys
    ∧ keys ≡ₚ d.*1
    ∧ Sorted value_le keys
    ∧ shown = take 3 (filter (λ item, has_any_po item.2 = true)
                             ((λ k, (k, dd_get k d)) <$> keys))
    ∧ n = length shown ∧ (n ≤ 3)%nat
    ∧ Forall (λ item, has_any_po item.2 = true) shown.
Proof.
  unfold example_breakdowns. intros H.
  apply bind_ok in H as (keys & Hkeys & H). exists keys. split; [done|].
  unfold py_sorted in Hkeys. apply bind_ok in Hkeys as (_ & _ & Hk).
  injection Hk as <-.
  pose proof (breakdown_fold d (merge_sort value_le d.*1) []) as Hf.
  simpl in Hf. rewrite Hf in H by lia. injection H as Hn Hs. subst n shown.
  split_and!; try done.
  - apply merge_sort_Permutation.
  - apply Sorted_merge_sort, _.
  - rewrite length_take. lia.
  - apply Forall_take, Forall_forall. intros item Hitem.
    by apply list_elem_of_filter in Hitem as [? _].
Qed.

Lemma example_breakdowns_first_three_witness :
  ∃ st n shown, row_loop init sample_sheet = Ok st
    ∧ example_breakdowns (job_components st) = Ok (n, shown)
    ∧ n = length shown ∧ (n ≤ 3)%nat.
Proof.
  destruct (row_loop init sample_sheet) as [st|] eqn:Hst;
    [|vm_compute in Hst; discriminate Hst].
  destruct (example_breakdowns (job_components st)) as [[n shown]|] eqn:H.
  - exists st, n, shown. split; [reflexivity|]. split; [exact H|].
    destruct (example_breakdowns_first_three _ n shown H)
      as (keys & _ & _ & _ & _ & Hn & Hle & _).
    by split.
  - vm_compute in Hst. injection Hst as <-. vm_compute in H. discriminate H.
Defined.

(** ** Where the script raises *)

Lemma row_loop_first_raise (rows : list Row) (st : State) :
  row_loop st rows = TypeError →
  ∃ pre r post st1, rows = pre ++ r :: post
    ∧ row_loop st pre = Ok st1 ∧ process_row st1 r = TypeError.
Proof.
  revert st. induction rows as [|r rows IH]; intros st H; simpl in H; [done|].
  destruct (process_row st r) as [st1|] eqn:Hr; simpl in H.
  - destruct (IH _ H) as (pre & r' & post & st2 & -> & Hpre & Hr').
    exists (r :: pre), r', post, st2. split_and!; [done| |done].
    simpl. by rewrite Hr.
  - by exists [], r, rows, st.
Qed.

Lemma row_loop_job_seen (rows : list Row) (st st' : State) :
  row_loop st rows = Ok st' →
  truthy (current_job st') = true
  ↔ truthy (current_job st) = true ∨ Exists (λ r, classify r = Job) rows.
Proof.
  revert st. induction rows as [|r rows IH]; intros st H; simpl in H.
  - injection H as <-. rewrite Exists_nil. tauto.
  - apply bind_ok in H as (st1 & H1 & H2).
    rewrite (IH _ H2), Exists_cons.
    destruct (process_row_cursor _ _ _ H1) as (_ & _ & ->).
    destruct (decide (classify r = Job)) as [Hj|Hj].
    + rewrite (classify_job_truthy _ Hj). tauto.
    + tauto.
Qed.

Lemma text_clash_raises (a b : value) :
  text_clash a b → shortage_raises (or0 a) (or0 b).
Proof.
  unfold text_clash, shortage_raises.
  destruct (or0_kind a) as [[x ->]|[s ->]], (or0_kind b) as [[y ->]|[u ->]];
    simpl; tauto.
Qed.

Lemma int_quantities_do_not_raise (a b : value) :
  int_quantity a → int_quantity b → ¬ shortage_raises (or0 a) (or0 b).
Proof.
  unfold int_quantity, shortage_raises.
  destruct (or0_kind a) as [[x ->]|[s ->]], (or0_kind b) as [[y ->]|[u ->]];
    simpl; intros; try tauto; discriminate.
Qed.

(** X10.  Started on a fresh state, the row loop raises, and the script with
    it, as soon as the sheet has a Component row after some Job row whose
    committed and on-hand cells clash on text: one is non-empty text while
    the other is an integer, empty or empty text, or both are non-empty text
    with the committed text ordered after the on-hand text.  It runs to its
    end on every sheet whose Component rows all have committed and on-hand
    cells that are integers, empty or empty text. *)
Theorem row_loop_raises_on_text_clash :
  (∀ (pre post : list Row) (comp : Row),
     Exists (λ r, classify r = Job) pre →
     classify comp = Component →
     text_clash (QTY_COMMITTED comp) (QTY_ONHAND comp) →
     row_loop init (pre ++ comp :: post) = TypeError
     ∧ analyze (pre ++ comp :: post) = TypeError)
  ∧ (∀ rows : list Row,
       Forall (λ r, classify r = Component →
                    int_quantity (QTY_COMMITTED r) ∧ int_quantity (QTY_ONHAND r))
              rows →
       ∃ st, row_loop init rows = Ok st).
Proof.
  split.
  - intros pre post comp Hjob Hcl Hclash.
    assert (row_loop init (pre ++ comp :: post) = TypeError) as H.
    { rewrite row_loop_app.
      destruct (row_loop init pre) as [st1|] eqn:Hpre; [|done].
      simpl. assert (process_row st1 comp = TypeError) as ->; [|done].
      apply process_row_raises. split_and!; [done| |by apply text_clash_raises].
      apply (row_loop_job_seen _ _ _ Hpre). by right. }
    split; [done|]. unfold analyze. by rewrite H.
  - intros rows Hrows.
    destruct (row_loop init rows) as [st|] eqn:H; [by exists st|].
    destruct (row_loop_first_raise _ _ H) as (pre & r & post & st1 & -> & _ & Hr).
    apply process_row_raises in Hr as (Hcl & _ & Hsh).
    apply Forall_app in Hrows as [_ Hrows].
    apply Forall_cons in Hrows as [Hint _].
    destruct (Hint Hcl) as [Hc Ho].
    by destruct (int_quantities_do_not_raise _ _ Hc Ho).
Qed.

Lemma row_loop_raises_on_text_clash_witness :
  let pre := [job_row (VStr "J100")] in
  let comp := component_row (VStr "C1") (VStr "many") VNone (VInt 2)
                            VNone VNone VNone VNone in
  Exists (λ r, classify r = Job) pre
  ∧ classify comp = Component
  ∧ text_clash (QTY_COMMITTED comp) (QTY_ONHAND comp)
  ∧ row_loop init (pre ++ comp :: sample_sheet) = TypeError
  ∧ analyze (pre ++ comp :: sample_sheet) = TypeError.
Proof.
  intros pre comp.
  assert (Exists (λ r, classify r = Job) pre) as Hjob
    by (apply Exists_cons_hd; reflexivity).
  split; [exact Hjob|]. split; [reflexivity|]. split; [exact I|].
  apply (proj1 row_loop_raises_on_text_clash pre sample_sheet comp Hjob eq_refl I).
Defined.

Lemma for_each_raises {S A : Type} (body : S → A → result S) (bad : A → Prop) :
  (∀ s a, body s a = TypeError ↔ bad a) →
  ∀ l s, for_each body s l = TypeError ↔ Exists bad l.
Proof.
  intros Hbody. induction l as [|a l IH]; intros s; simpl.
  - rewrite Exists_nil. split; [done|tauto].
  - rewrite Exists_cons. destruct (body s a) as [s1|] eqn:Ha; simpl.
    + rewrite IH. split; [tauto|]. intros [Hbad|Hl]; [|done].
      apply (Hbody s) in Hbad. congruence.
    + split; [|done]. intros _. left. by apply (Hbody s).
Qed.

(** X11.  The purchase-order loop raises whenever some stored record with
    a purchase order has an ordered or received quantity that is non-empty
    text.  It runs to its end whenever the ordered and received quantities
    of every stored record with a purchase order are integers, empty or
    empty text; records without a purchase order are not looked at. *)
Theorem po_loop_raises_on_text (d : list (value * list ComponentRecord)) :
  (Exists po_text_quantity (all_comps d) → po_analysis d = TypeError)
  ∧ (Forall (λ c, has_po c = true →
                  int_quantity (qty_ordered c) ∧ int_quantity (qty_received c))
            (all_comps d) →
     ∃ t, po_analysis d = Ok t).
Proof.
  assert (po_analysis d = TypeError ↔ Exists po_text_quantity (all_comps d)) as Hiff.
  { unfold po_analysis. rewrite for_each_comp_flat.
    apply for_each_raises. intros t c. apply po_comp_raises. }
  split; [apply Hiff|].
  intros Hall. destruct (po_analysis d) as [t|] eqn:H; [by exists t|].
  apply proj1 in Hiff. specialize (Hiff eq_refl).
  apply Exists_exists in Hiff as (c & Hin & Hpo & Htext).
  rewrite Forall_forall in Hall. destruct (Hall c Hin Hpo) as [Ho Hr].
  unfold int_quantity in Ho, Hr.
  destruct Htext as [Ht|Ht];
    [destruct (or0 (qty_ordered c))|destruct (or0 (qty_received c))]; done.
Qed.

Lemma po_loop_raises_on_text_witness :
  let d := [(VStr "J100",
             [mkComp (VStr "C2") VNone (VInt 0) (VInt 0) (VInt 0) true
                     (VStr "PO77") (VStr "V1") (VStr "twenty") (VInt 20)
                     VNone (VInt 0)])] in
  Exists po_text_quantity (all_comps d) ∧ po_analysis d = TypeError.
Proof.
  intros d.
  assert (Exists po_text_quantity (all_comps d)) as H.
  { apply Exists_cons_hd. split; [reflexivity|]. left. reflexivity. }
  split; [exact H|]. apply (proj1 (po_loop_raises_on_text d) H).
Defined.

Lemma dd_append_Forall (P : ComponentRecord → Prop) (k : value)
    (x : ComponentRecord) (d : list (value * list ComponentRecord)) :
  P x → Forall (λ item, Forall P item.2) d →
  Forall (λ item, Forall P item.2) (dd_append k x d).
Proof.
  intros Hx. induction d as [|[k' l] d IH]; intros Hd; simpl.
  - apply Forall_singleton. simpl. by apply Forall_singleton.
  - apply Forall_cons in Hd as [Hl Hd]. simpl in Hl.
    destruct (decide (k' = k)); apply Forall_cons; split; simpl; auto.
    apply Forall_app. split; [done|]. by apply Forall_singleton.
Qed.

Lemma stock_comp_built (t : StockTally) (c : ComponentRecord) :
  built_record c → ∃ t', stock_comp t c = Ok t'.
Proof.
  intros [row H]. unfold component_record in H.
  apply bind_ok in H as (sh & Hsh & H). injection H as <-.
  unfold stock_comp; simpl. unfold shortage_expr in Hsh.
  destruct (is_not_none (PURCHASE_ORDER row)); simpl; [eauto|].
  destruct (or0_kind (QTY_COMMITTED row)) as [[x Hx]|[x Hx]],
    (or0_kind (QTY_ONHAND row)) as [[y Hy]|[y Hy]];
    rewrite Hx, Hy in *; simpl in Hsh; try discriminate Hsh; simpl.
  - destruct (y >=? x); eauto.
  - destruct (String.compare y x); eauto.
Qed.

Lemma process_row_built (st st' : State) (row : Row) :
  Forall (λ item, Forall built_record item.2) (job_components st) →
  process_row st row = Ok st' →
  Forall (λ item, Forall built_record item.2) (job_components st').
Proof.
  intros Hst. rewrite process_row_classify. destruct (classify row); intros H.
  - by injection H as <-.
  - by injection H as <-.
  - destruct (component_branch_shape _ _ _ H) as (_ & _ & [[_ ->]|(rec & _ & Hrec & ->)]);
      [done|].
    apply dd_append_Forall; [by exists row|done].
  - by injection H as <-.
Qed.

(** X12.  After a completed row loop the stock availability loop never
    raises: every stored record was built by the row loop, where the
    shortage computation has already compared its committed and on-hand
    quantities. *)
Theorem stock_loop_never_raises (rows : list Row) (st : State) :
  row_loop init rows = Ok st →
  Forall built_record (all_comps (job_components st))
  ∧ ∃ stk, stock_analysis (job_components st) = Ok stk.
Proof.
  intros H.
  assert (Forall (λ item, Forall built_record item.2) (job_components st)) as Hb.
  { assert (Forall (λ item, Forall built_record item.2) (job_components init)) as Hi
      by (simpl; apply Forall_nil_2).
    revert H Hi. generalize init. induction rows as [|r rows IH]; intros s H Hs;
      simpl in H.
    - by injection H as <-.
    - apply bind_ok in H as (s1 & H1 & H2). eapply IH; [exact H2|].
      by eapply process_row_built. }
  assert (Forall built_record (all_comps (job_components st))) as Hall.
  { unfold all_comps. by apply Forall_concat, Forall_fmap. }
  split; [done|]. unfold stock_analysis. rewrite for_each_comp_flat.
  apply (for_each_total stock_comp built_record); [|done].
  intros t c Hc. by apply stock_comp_built.
Qed.

Lemma stock_loop_never_raises_witness :
  ∃ st, row_loop init sample_sheet = Ok st
    ∧ ∃ stk, stock_analysis (job_components st) = Ok stk.
Proof.
  destruct (row_loop init sample_sheet) as [st|] eqn:H;
    [|vm_compute in H; discriminate H].
  exists st. split; [reflexivity|].
  apply (stock_loop_never_raises sample_sheet st H).
Defined.

(** * The sheet survey *)

(** ** Finding the header row *)

Lemma first_header_seq (ws : Sheet) (n a : nat) :
  match first_header ws (seq a n) with
  | Some h =>
      (a ≤ h < a + n)%nat
      ∧ (3 < length (non_empty (sheet_row ws h)))%nat
      ∧ ∀ r, (a ≤ r < h)%nat → (length (non_empty (sheet_row ws r)) ≤ 3)%nat
  | None =>
      ∀ r, (a ≤ r < a + n)%nat → (length (non_empty (sheet_row ws r)) ≤ 3)%nat
  end.
Proof.
  revert a. induction n as [|n IH]; intros a; simpl.
  - intros r Hr. lia.
  - case_bool_decide as Hw.
    + split_and!; [lia..|]. intros r Hr. lia.
    + specialize (IH (S a)). destruct (first_header ws (seq (S a) n)) as [h|].
      * destruct IH as (Hh & Hwide & Hbefore). split_and!; [lia..|done|].
        intros r Hr. destruct (decide (r = a)) as [->|Hne]; [lia|].
        apply Hbefore. lia.
      * intros r Hr. destruct (decide (r = a)) as [->|Hne]; [lia|].
        apply IH. lia.
Qed.

(** X16.  The header row the survey settles on is the first row with more
    than three non-empty cells, looked for among rows 1 to 9 of the sheet
    only: when one is found it lies in that range and no earlier row has
    more than three non-empty cells; when none is found, no row of that
    range has.  A header in row 10 or below is never found. *)
Theorem header_row_is_first_wide_row (ws : Sheet) :
  match find_header_row ws with
  | Some h =>
      (1 ≤ h ≤ 9)%nat ∧ (h ≤ max_row ws)%nat
      ∧ (3 < length (non_empty (sheet_row ws h)))%nat
      ∧ ∀ r, (1 ≤ r < h)%nat → (length (non_empty (sheet_row ws r)) ≤ 3)%nat
  | None =>
      ∀ r, (1 ≤ r ≤ 9)%nat → (r ≤ max_row ws)%nat →
           (length (non_empty (sheet_row ws r)) ≤ 3)%nat
  end.
Proof.
  unfold find_header_row, py_range.
  pose proof (first_header_seq ws (min 10 (max_row ws + 1) - 1) 1) as H.
  destruct (first_header ws (seq 1 (min 10 (max_row ws + 1) - 1))) as [h|].
  - destruct H as (Hh & Hwide & Hbefore). split_and!; [lia..|done|done].
  - intros r Hr Hmax. apply H. lia.
Qed.

(** ** Column headers *)

Lemma headers_columns (ws : Sheet) (header : nat) (cols : list nat) :
  (omap (λ i, let v := cell_value ws header i in
              if is_not_none v then Some (i, py_str v) else None) cols).*1
  = filter (λ i, is_not_none (cell_value ws header i) = true) cols.
Proof.
  induction cols as [|c cols IH]; [done|].
  rewrite filter_cons. simpl.
  destruct (is_not_none (cell_value ws header c)) eqn:Hc.
  - rewrite decide_True by done. simpl. f_equal. exact IH.
  - rewrite decide_False by done. exact IH.
Qed.

Lemma non_empty_columns (ws : Sheet) (header : nat) (cols : list nat) :
  length (non_empty (cell_value ws header <$> cols))
  = length (filter (λ i, is_not_none (cell_value ws header i) = true) cols).
Proof.
  unfold non_empty. induction cols as [|c cols IH]; [done|].
  rewrite fmap_cons, !filter_cons.
  destruct (is_not_none (cell_value ws header c)) eqn:Hc.
  - rewrite !decide_True by done. simpl. by rewrite IH.
  - by rewrite !decide_False by done.
Qed.

(** X17.  The header list names exactly the non-empty cells of the header
    row, in column order, each with its column number (counted from 1) and
    the text of its cell; for the row found by the search there are more
    than three of them. *)
Theorem headers_are_nonempty_cells (ws : Sheet) (header : nat) :
  (sheet_headers ws header).*1
    = filter (λ i, is_not_none (cell_value ws header i) = true)
             (seq 1 (max_column ws))
  ∧ Forall (λ h, h.2 = py_str (cell_value ws header h.1)
                 ∧ (1 ≤ h.1 ≤ max_column ws)%nat)
           (sheet_headers ws header)
  ∧ length (sheet_headers ws header) = length (non_empty (sheet_row ws header))
  ∧ (find_header_row ws = Some header →
     (3 < length (sheet_headers ws header))%nat).
Proof.
  assert (length (sheet_headers ws header)
          = length (non_empty (sheet_row ws header))) as Hlen.
  { unfold sheet_row. rewrite non_empty_columns.
    rewrite <- (headers_columns ws header (seq 1 (max_column ws))).
    by rewrite length_fmap. }
  split_and!; [apply headers_columns| |done|].
  - unfold sheet_headers. apply Forall_forall. intros [i name] Hin.
    apply list_elem_of_omap in Hin as (c & Hc & Hf). simpl in Hf.
    destruct (is_not_none (cell_value ws header c)); [|discriminate Hf].
    injection Hf as <- <-. simpl. split; [done|].
    apply elem_of_seq in Hc. lia.
  - intros Hfound. rewrite Hlen. unfold find_header_row in Hfound.
    pose proof (first_header_seq ws (min 10 (max_row ws + 1) - 1) 1) as H.
    unfold py_range in Hfound. rewrite Hfound in H.
    by destruct H as (_ & ? & _).
Qed.

Lemma headers_are_nonempty_cells_witness :
  find_header_row sample_grid = Some 2%nat
  ∧ (3 < length (sheet_headers sample_grid 2))%nat.
Proof.
  split; [reflexivity|].
  apply (headers_are_nonempty_cells sample_grid 2). reflexivity.
Defined.

(** ** Column profiles *)

Lemma py_len_prefix (n : nat) (s : string) : (py_len (py_prefix n s) ≤ n)%nat.
Proof.
  revert n. induction s as [|c s IH]; intros n; simpl; [lia|].
  destruct (utf8_continuation c) eqn:Hc; simpl.
  - rewrite Hc. apply IH.
  - destruct n as [|n]; simpl; [lia|]. rewrite Hc. specialize (IH n). lia.
Qed.

Lemma py_prefix_short (n : nat) (s : string) :
  (py_len s ≤ n)%nat → py_prefix n s = s.
Proof.
  revert n. induction s as [|c s IH]; intros n; simpl; [done|].
  destruct (utf8_continuation c).
  - intros H. by rewrite IH.
  - destruct n as [|n]; [lia|]. intros H. rewrite IH; [done|lia].
Qed.

Lemma counter_total_incr (k : string) (c : gmap string Z) :
  counter_total (<[ k := default 0 (c !! k) + 1 ]> c) = counter_total c + 1.
Proof.
  unfold counter_total.
  assert (∀ (m : gmap string Z) (j1 j2 : string) (z1 z2 y : Z),
            j1 ≠ j2 → m !! j1 = Some z1 → m !! j2 = Some z2 →
            z1 + (z2 + y) = z2 + (z1 + y)) as Hcomm by (intros; lia).
  destruct (c !! k) as [n|] eqn:Hk; simpl.
  - rewrite <- insert_delete_eq.
    rewrite map_fold_insert_L; [|apply Hcomm|apply lookup_delete_eq].
    rewrite (map_fold_delete_L _ _ k n c); [lia|apply Hcomm|done].
  - rewrite map_fold_insert_L; [lia|apply Hcomm|done].
Qed.

Lemma column_fold (cells : list value) (types : gmap string Z) (samples : list string) :
  (length samples ≤ 5)%nat →
  let vals := non_empty cells in
  let res := foldl column_step (types, samples) cells in
  res.2 = take 5 (samples ++ ((λ v, py_prefix 50 (py_str v)) <$> vals))
  ∧ (∀ name, default 0 (res.1 !! name)
             = default 0 (types !! name)
               + Z.of_nat (length (filter (λ v, type_name v = name) vals)))
  ∧ counter_total res.1 = counter_total types + Z.of_nat (length vals).
Proof.
  revert types samples. unfold non_empty.
  induction cells as [|v cells IH]; intros types samples Hlen; simpl.
  - rewrite app_nil_r, take_ge by done. split_and!; [done| |lia]. intros name. lia.
  - rewrite filter_cons. unfold column_step at 2 4 6. simpl.
    destruct (is_not_none v) eqn:Hv.
    + rewrite decide_True by done. rewrite fmap_cons.
      case_bool_decide as Hlt.
      * edestruct IH as (Hs & Ht & Hc); [|rewrite Hs, Hc; split_and!].
        { rewrite length_app. simpl. lia. }
        { by rewrite <- app_assoc. }
        { intros name. rewrite Ht, filter_cons.
          destruct (decide (type_name v = name)) as [<-|Hne].
          - rewrite lookup_insert_eq. simpl. lia.
          - rewrite lookup_insert_ne by done. lia. }
        rewrite counter_total_incr. simpl length. lia.
      * edestruct IH as (Hs & Ht & Hc); [exact Hlen|rewrite Hs, Hc; split_and!].
        { rewrite !take_app_le by lia. done. }
        { intros name. rewrite Ht, filter_cons.
          destruct (decide (type_name v = name)) as [<-|Hne].
          - rewrite lookup_insert_eq. simpl. lia.
          - rewrite lookup_insert_ne by done. lia. }
        rewrite counter_total_incr. simpl length. lia.
    + rewrite decide_False by done. by apply IH.
Qed.

(** X18.  For a column, over the first hundred data rows at most: the
    samples kept are the texts of the first five non-empty cells, each cut
    to its first 50 characters (a text of at most 50 characters is kept
    whole); the counter records, per type name, how many non-empty cells
    have that type, and its counts add up to the number of non-empty cells
    read. *)
Theorem column_profile_counts (ws : Sheet) (header col_idx : nat) :
  let vals := non_empty (column_cells ws header col_idx) in
  let profile := column_profile ws header col_idx in
  profile.2 = take 5 ((λ v, py_prefix 50 (py_str v)) <$> vals)
  ∧ (length profile.2 ≤ 5)%nat
  ∧ Forall (λ s, (py_len s ≤ 50)%nat) profile.2
  ∧ (∀ v, (py_len (py_str v) ≤ 50)%nat → py_prefix 50 (py_str v) = py_str v)
  ∧ (∀ name, default 0 (profile.1 !! name)
             = Z.of_nat (length (filter (λ v, type_name v = name) vals)))
  ∧ counter_total profile.1 = Z.of_nat (length vals)
  ∧ (length vals ≤ 100)%nat.
Proof.
  intros vals profile. subst vals profile. unfold column_profile.
  pose proof (column_fold (column_cells ws header col_idx) ∅ []) as H.
  cbv zeta in H. destruct H as (Hs & Ht & Hc); [simpl; lia|].
  rewrite app_nil_l in Hs.
  set (profile := foldl column_step (∅, []) (column_cells ws header col_idx)) in *.
  set (vals := non_empty (column_cells ws header col_idx)) in *.
  split_and!; [done| | | | | |].
  - rewrite Hs, length_take. lia.
  - rewrite Hs. apply Forall_take, Forall_fmap, Forall_forall.
    intros v _. apply py_len_prefix.
  - intros v. apply py_prefix_short.
  - intros name. rewrite Ht, lookup_empty. simpl. lia.
  - rewrite Hc. unfold counter_total. rewrite map_fold_empty. lia.
  - subst vals. unfold non_empty.
    etrans; [apply length_filter|].
    unfold column_cells, py_range. rewrite length_fmap, length_seq. lia.
Qed.

Lemma column_profile_counts_witness :
  (column_profile sample_grid 2 3).2 = ["5"; "7"]
  ∧ default 0 ((column_profile sample_grid 2 3).1 !! "int") = 2
  ∧ default 0 ((column_profile sample_grid 2 3).1 !! "str") = 0
  ∧ counter_total (column_profile sample_grid 2 3).1 = 2.
Proof.
  destruct (column_profile_counts sample_grid 2 3)
    as (Hs & _ & _ & _ & Ht & Hc & _).
  split_and!.
  - rewrite Hs. reflexivity.
  - rewrite Ht. reflexivity.
  - rewrite Ht. reflexivity.
  - rewrite Hc. reflexivity.
Defined.

(** ** Data rows *)

Lemma sample_window (a m : nat) :
  py_range a (min (a + 10) (m + 1)) = take 10 (py_range a (m + 1)).
Proof.
  unfold py_range. rewrite take_seq. f_equal. lia.
Qed.

Lemma filter_take_length {A : Type} (P : A → Prop) `{!∀ x, Decision (P x)}
    (n : nat) (l : list A) :
  (length (filter P (take n l)) ≤ length (filter P l))%nat.
Proof.
  rewrite <- (take_drop n l) at 2. rewrite filter_app, length_app. lia.
Qed.

(** X19.  The sample rows are the non-empty rows among the first ten data
    rows, so there are at most ten of them and never more than the count of
    non-empty data rows, which in turn is at most the number of rows below
    the header; on a sheet with at most ten data rows the two counts agree.
    Every sample row lies below the header, within the sheet, and has a
    non-empty cell. *)
Theorem data_row_counts (ws : Sheet) (header : nat) :
  sample_rows ws header
    = filter (λ r, has_data ws r = true)
             (take 10 (py_range (header + 1) (max_row ws + 1)))
  ∧ (length (sample_rows ws header) ≤ 10)%nat
  ∧ (length (sample_rows ws header) ≤ actual_rows ws header)%nat
  ∧ (actual_rows ws header ≤ max_row ws - header)%nat
  ∧ Forall (λ r, (header < r ≤ max_row ws)%nat ∧ has_data ws r = true)
           (sample_rows ws header)
  ∧ ((max_row ws ≤ header + 10)%nat →
     length (sample_rows ws header) = actual_rows ws header).
Proof.
  assert (sample_rows ws header
          = filter (λ r, has_data ws r = true)
                   (take 10 (py_range (header + 1) (max_row ws + 1)))) as Hs.
  { unfold sample_rows. cbv zeta. by rewrite sample_window. }
  split_and!; [done| | | | |].
  - rewrite Hs. etrans; [apply length_filter|]. rewrite length_take. lia.
  - rewrite Hs. unfold actual_rows. apply filter_take_length.
  - unfold actual_rows. etrans; [apply length_filter|].
    unfold py_range. rewrite length_seq. lia.
  - rewrite Hs. apply Forall_forall. intros r Hr.
    apply list_elem_of_filter in Hr as [Hdata Hr]. split; [|done].
    apply subseteq_take in Hr. unfold py_range in Hr.
    apply elem_of_seq in Hr. lia.
  - intros Hsmall. rewrite Hs. unfold actual_rows.
    rewrite take_ge; [done|]. unfold py_range. rewrite length_seq. lia.
Qed.

Lemma data_row_counts_witness :
  (max_row sample_grid ≤ 2 + 10)%nat
  ∧ length (sample_rows sample_grid 2) = actual_rows sample_grid 2
  ∧ actual_rows sample_grid 2 = 3%nat.
Proof.
  split; [simpl; lia|].
  split; [|reflexivity].
  apply (data_row_counts sample_grid 2). simpl. lia.
Defined.
